(** * open-review: response validation, diff line mapping and the review run

    The code of [LLMClient] ([src/llm/client.ts]) and of
    [ReviewOrchestrator], embedded in Rocq.

    - A string is a [string], the bytes of its UTF-8 text.
    - A number that comes out of the decoded answer of the engine is a
      rational [Q]; a double that is not finite compares with a counter as
      a fraction does, it is never equal to it.  A counter of the program
      is a [Z] or a [nat], exact also where a double would round.
    - [null] and [undefined] of an optional string are [None]; the
      [undefined] of a missing property is [None] as well.
    - An exception is the [Thrown] case of [Outcome]; [try]/[catch] is
      [tryCatchO] in pure code and [tryCatch] in code that awaits a
      collaborator.
    - The calls of [logger] are left out: they return nothing the code
      reads. *)

From Stdlib Require Import ZArith QArith List String Ascii Bool Lia.
From Stdlib Require Import DecimalString DecimalNat.
Import ListNotations.

Local Open Scope string_scope.
Local Open Scope Z_scope.

(* ================================================================== *)
(** ** String helpers: the few [String.prototype] methods the code uses *)
(* ================================================================== *)

Module Str.

(** [s.startsWith(p)] *)
Fixpoint startsWith (p s : string) : bool :=
  match p, s with
  | EmptyString, _ => true
  | String a p', String b s' => Ascii.eqb a b && startsWith p' s'
  | String _ _, EmptyString => false
  end.

(** the rest of [s] after the literal [p], when [s] starts with [p] *)
Fixpoint stripPrefix (p s : string) : option string :=
  match p, s with
  | EmptyString, _ => Some s
  | String a p', String b s' => if Ascii.eqb a b then stripPrefix p' s' else None
  | String _ _, EmptyString => None
  end.

(** the regular-expression class [\d] *)
Definition isDigit (c : ascii) : bool :=
  let n := nat_of_ascii c in (48 <=? n)%nat && (n <=? 57)%nat.

(** the longest run of digits at the head of [s], and what follows it *)
Fixpoint takeDigits (s : string) : string * string :=
  match s with
  | EmptyString => (EmptyString, EmptyString)
  | String c r =>
      if isDigit c
      then let (d, r') := takeDigits r in (String c d, r')
      else (EmptyString, s)
  end.

(** [parseInt(d, 10)] on a string of digits *)
Fixpoint parseDigits (acc : Z) (d : string) : Z :=
  match d with
  | EmptyString => acc
  | String c r => parseDigits (10 * acc + (Z.of_nat (nat_of_ascii c) - 48)) r
  end.

Definition parseInt (d : string) : Z := parseDigits 0 d.

Definition LF : ascii := ascii_of_nat 10.

(** [s.split("\n")]: never empty, [""] splits into [[""]] *)
Fixpoint split_lines (s : string) : list string :=
  match s with
  | EmptyString => [EmptyString]
  | String c r =>
      if Ascii.eqb c LF then EmptyString :: split_lines r
      else match split_lines r with
           | [] => [String c EmptyString]
           | l :: ls => String c l :: ls
           end
  end.

(** [parts.join("\n")] *)
Fixpoint join_lines (parts : list string) : string :=
  match parts with
  | [] => EmptyString
  | [p] => p
  | p :: ps => p ++ String LF (join_lines ps)
  end.

End Str.

(* ================================================================== *)
(** ** DiffLineMapper: [ReviewOrchestrator.mapLineToDiff]               *)
(* ================================================================== *)

Module DiffLineMapper.
Import Str.

(** The optional group [(?:,\d+)?]: consumed when a comma and at least one
    digit are there, skipped otherwise. *)
Definition optCommaDigits (s : string) : string :=
  match s with
  | String "," r =>
      match takeDigits r with
      | (EmptyString, _) => s
      | (_, r') => r'
      end
  | _ => s
  end.

(** [/@@ -\d+(?:,\d+)? \+(\d+)(?:,\d+)? @@/] tried at the head of [s];
    the result is capture group 1.  Every [\d+] is followed by a
    character that is no digit, so the greedy match is the only one. *)
Definition hunkMatchAt (s : string) : option string :=
  match stripPrefix "@@ -" s with
  | None => None
  | Some r1 =>
      match takeDigits r1 with
      | (EmptyString, _) => None
      | (_, r2) =>
          match stripPrefix " +" (optCommaDigits r2) with
          | None => None
          | Some r3 =>
              match takeDigits r3 with
              | (EmptyString, _) => None
              | (newStart, r4) =>
                  match stripPrefix " @@" (optCommaDigits r4) with
                  | None => None
                  | Some _ => Some newStart
                  end
              end
          end
      end
  end.

(** [line.match(re)]: the expression is not anchored, the leftmost match
    anywhere in the line wins. *)
Fixpoint hunkSearch (line : string) : option string :=
  match hunkMatchAt line with
  | Some g => Some g
  | None =>
      match line with
      | EmptyString => None
      | String _ r => hunkSearch r
      end
  end.

(** [hunkMatch ? parseInt(hunkMatch[1], 10) : (no header)] *)
Definition hunkMatch (line : string) : option Z :=
  option_map parseInt (hunkSearch line).

(** The loop of [mapLineToDiff], with its three variables [i],
    [currentLine] and [inHunk].  Only the branch of an added line compares
    the counter with [targetLine]. *)
Fixpoint mapLoop (targetLine : Q) (patchLines : list string)
         (i currentLine : Z) (inHunk : bool) : option Z :=
  match patchLines with
  | [] => None
  | line :: rest =>
      match hunkMatch line with
      | Some newStart => mapLoop targetLine rest (i + 1) (newStart - 1) true
      | None =>
          if negb inHunk then mapLoop targetLine rest (i + 1) currentLine inHunk
          else if startsWith "+" line then
            let currentLine := currentLine + 1 in
            if Qeq_bool (inject_Z currentLine) targetLine
            then Some (i + 1)
            else mapLoop targetLine rest (i + 1) currentLine inHunk
          else if negb (startsWith "-" line) then
            mapLoop targetLine rest (i + 1) (currentLine + 1) inHunk
          else mapLoop targetLine rest (i + 1) currentLine inHunk
      end
  end.

Definition mapLineToDiff (targetLine : Q) (patchLines : list string) : option Z :=
  mapLoop targetLine patchLines 0 0 false.

(** *** The unified diff of the data model

    A diff is an ordered sequence of hunks after some leading lines; a hunk
    has a header, a [newStart] and body lines tagged by their first
    character. *)

Inductive LineTag := Context | Added | Removed.

Definition tagOf (line : string) : LineTag :=
  if startsWith "+" line then Added
  else if startsWith "-" line then Removed
  else Context.

Record Hunk := mkHunk { header : string; newStart : Z; body : list string }.

Record UnifiedDiff := mkDiff { preamble : list string; hunks : list Hunk }.

Definition renderHunk (h : Hunk) : list string := header h :: body h.

Definition renderHunks (hs : list Hunk) : list string := flat_map renderHunk hs.

Definition render (d : UnifiedDiff) : list string :=
  preamble d ++ renderHunks (hunks d).



Definition noHeader (l : string) : bool :=
  match hunkMatch l with None => true | Some _ => false end.



End DiffLineMapper.

(* ================================================================== *)
(** ** JavaScript values, exceptions and the built-ins the code calls  *)
(* ================================================================== *)

Module Js.

Inductive Error :=
| SyntaxError
| TypeError
| ServiceError (message : string).

(** The result of evaluating an expression or a call: a value, or an
    exception on its way to the nearest [catch]. *)
Inductive Outcome (A : Type) :=
| Returned (a : A)
| Thrown (e : Error).

Arguments Returned {A} a.
Arguments Thrown {A} e.

Definition bindO {A B} (m : Outcome A) (k : A -> Outcome B) : Outcome B :=
  match m with
  | Returned a => k a
  | Thrown e => Thrown e
  end.

(** [try { m } catch (e) { h e }] *)
Definition tryCatchO {A} (m : Outcome A) (h : Error -> Outcome A) : Outcome A :=
  match m with
  | Returned a => Returned a
  | Thrown e => h e
  end.

(** What [JSON.parse] can produce. *)
#[warnings="-register-all"] Inductive Value :=
| JNull
| JBool (b : bool)
| JNum (n : Q)
| JStr (s : string)
| JArr (items : list Value)
| JObj (fields : list (string * Value)).

Fixpoint lookup (k : string) (fields : list (string * Value)) : option Value :=
  match fields with
  | [] => None
  | (k', v) :: rest => if String.eqb k k' then Some v else lookup k rest
  end.

(** [v.k] for a key [k] that no prototype defines ([reviews], [summary],
    [line], [message], [severity], [category]): [None] is [undefined];
    reading a property of [null] throws a [TypeError]. *)
Definition getProp (v : Value) (k : string) : Outcome (option Value) :=
  match v with
  | JNull => Thrown TypeError
  | JObj fields => Returned (lookup k fields)
  | _ => Returned None
  end.

(** [Boolean(v)], the test behind [!v], [v || d] and [v ? a : b] *)
Definition truthy (v : option Value) : bool :=
  match v with
  | None => false
  | Some JNull => false
  | Some (JBool b) => b
  | Some (JNum n) => negb (Qeq_bool n 0)
  | Some (JStr s) => negb (String.eqb s "")
  | Some (JArr _) => true
  | Some (JObj _) => true
  end.

(** [typeof v === 'number'] *)
Definition isNumber (v : option Value) : bool :=
  match v with Some (JNum _) => true | _ => false end.

(** [Number.isInteger(v)]: a number whose reduced denominator is 1 *)
Definition isInteger (v : option Value) : bool :=
  match v with
  | Some (JNum n) => Pos.eqb (Qden (Qred n)) 1
  | _ => false
  end.

(** [Array.isArray(v)] *)
Definition isArray (v : option Value) : bool :=
  match v with Some (JArr _) => true | _ => false end.

(** [v || d] *)
Definition orElse (v : option Value) (d : Value) : Value :=
  match v with
  | Some x => if truthy v then x else d
  | None => d
  end.

(** [!s] is false exactly for a non-empty string ([s] may be [null] or
    [undefined], both [None]) *)
Definition truthyStr (s : option string) : bool :=
  match s with
  | Some x => negb (String.eqb x "")
  | None => false
  end.

(** [parts.join(sep)] on strings *)
Fixpoint joinWith (sep : string) (parts : list string) : string :=
  match parts with
  | [] => ""
  | [p] => p
  | p :: ps => p ++ sep ++ joinWith sep ps
  end.

(** The built-ins of the language that the code calls and this
    development does not look into. *)
Class Runtime := mkRuntime {
  (** [JSON.parse(text)]: the decoded value, or a thrown [SyntaxError] *)
  JSON_parse : string -> Outcome Value;
  (** [String.prototype.trim] *)
  String_trim : string -> string;
  (** [String.prototype.toUpperCase] *)
  String_toUpperCase : string -> string;
  (** the decimal text of a number, as in [String(n)] *)
  Number_toString : Q -> string
}.

Section WithRuntime.
Context {rt : Runtime}.

(** [String(v)], as [Array.prototype.join] and template literals apply it;
    inside an array [null] prints as the empty string. *)
Fixpoint toString (v : Value) : string :=
  match v with
  | JNull => "null"
  | JBool true => "true"
  | JBool false => "false"
  | JNum n => Number_toString n
  | JStr s => s
  | JArr items =>
      joinWith ","
        (map (fun x => match x with JNull => "" | _ => toString x end) items)
  | JObj _ => "[object Object]"
  end.

(** the text [join] gives one element: empty for [undefined] and [null] *)
Definition joinElement (v : option Value) : string :=
  match v with
  | None => ""
  | Some JNull => ""
  | Some x => toString x
  end.

End WithRuntime.

End Js.

Declare Scope outcome_scope.
Delimit Scope outcome_scope with outcome.
Notation "'let*' x ':=' m 'in' k" := (Js.bindO m (fun x => k))
  (at level 10, x name, m at level 100, k at level 200) : outcome_scope.

(* ================================================================== *)
(** ** ReviewResponseValidator: [LLMClient.parseReviewResponse]         *)
(* ================================================================== *)

Module Validator.
Import Str Js.
Local Open Scope outcome_scope.

Record ReviewResult := mkResult { reviews : list Value; summary : Value }.

(** The length of the match of [/```json\n?|\n?```/] at the head of [s],
    0 when there is none; the first alternative is tried first. *)
Definition fenceLength (s : string) : nat :=
  match stripPrefix "```json" s with
  | Some r => if startsWith (String LF "") r then 8%nat else 7%nat
  | None =>
      if startsWith (String LF "```") s then 4%nat
      else if startsWith "```" s then 3%nat
      else 0%nat
  end.

(** [response.replace(/```json\n?|\n?```/g, '')]: [skip] counts the
    characters of the current match that are still to be dropped. *)
Fixpoint removeFences (skip : nat) (s : string) : string :=
  match s with
  | EmptyString => EmptyString
  | String c r =>
      match skip with
      | S k => removeFences k r
      | O =>
          match fenceLength s with
          | O => String c (removeFences 0 r)
          | S k => removeFences k r
          end
      end
  end.

(** The rule of the filter in words: a candidate is kept when its [line]
    is a number and its [message] is truthy; what is no object has neither
    field. *)
Definition field (c : Value) (k : string) : option Value :=
  match c with
  | JObj fields => lookup k fields
  | _ => None
  end.

Definition kept (c : Value) : bool :=
  isNumber (field c "line") && truthy (field c "message").

Section WithRuntime.
Context {rt : Runtime}.

Definition cleanResponse (response : string) : string :=
  String_trim (removeFences 0 response).

(** The callback of [parsed.reviews.filter(...)]. *)
Definition validReview (review : Value) : Outcome bool :=
  let* line := getProp review "line" in
  if negb (isNumber line) then Returned false
  else
    let* message := getProp review "message" in
    if negb (truthy message) then Returned false
    else Returned true.

(** [Array.prototype.filter] with a callback that may throw: elements are
    visited in order and the first exception ends the call. *)
Fixpoint filterO (f : Value -> Outcome bool) (l : list Value) : Outcome (list Value) :=
  match l with
  | [] => Returned []
  | x :: rest =>
      let* keep := f x in
      let* rest' := filterO f rest in
      Returned (if keep then x :: rest' else rest')
  end.

Definition itemsOf (v : option Value) : list Value :=
  match v with Some (JArr items) => items | _ => [] end.

(** The body of the [try] block. *)
Definition parseReviewBody (response filePath : string) : Outcome ReviewResult :=
  let cleaned := cleanResponse response in
  let* parsed := JSON_parse cleaned in
  let* reviews := getProp parsed "reviews" in
  if negb (truthy reviews) || negb (isArray reviews) then
    let* summary := getProp parsed "summary" in
    Returned (mkResult [] (orElse summary (JStr "Review completed")))
  else
    let* validReviews := filterO validReview (itemsOf reviews) in
    let* summary := getProp parsed "summary" in
    Returned (mkResult validReviews (orElse summary (JStr ("Reviewed " ++ filePath)))).

Definition parseFailure : ReviewResult :=
  mkResult [] (JStr "Failed to parse review response").

Definition parseReviewResponse (response filePath : string) : Outcome ReviewResult :=
  tryCatchO (parseReviewBody response filePath)
            (fun _ => Returned parseFailure).

End WithRuntime.

End Validator.

(* ================================================================== *)
(** ** ReviewOrchestrator and the two methods of [LLMClient] it calls   *)
(* ================================================================== *)

Module Orchestrator.
Import Str Js Validator DiffLineMapper.

(** *** Data of [../types] as the code uses it *)

(** [maxFiles] is the result of a [parseInt]; where that is [NaN] the
    test [maxFiles > 0] fails as it does for 0. *)
Record Config := mkConfig {
  excludePatterns : list string;
  maxFiles : Z;
  prompt : string;
  postAsReview : bool
}.

Record PRDetails := mkPRDetails { title : string; prBody : option string }.

Record PullRequestFile := mkFile {
  filename : string;
  status : string;
  patch : option string
}.

Record ReviewComment := mkComment {
  path : string;
  line : Z;
  body : string;
  side : string
}.

Record ReviewSummary := mkSummary {
  totalFiles : nat;
  filesReviewed : nat;
  totalComments : nat;
  criticalIssues : nat;
  warnings : nat;
  suggestions : nat;
  overall : string
}.

(** an element of [fileResults] *)
Record FileResult := mkFileResult {
  filePath : string;
  fileSummary : Value;
  issueCount : nat;
  criticalCount : nat;
  warningCount : nat;
  suggestionCount : nat
}.

(** what [reviewFile] resolves to *)
Record FileReview := mkFileReview {
  comments : list ReviewComment;
  reviewSummary : Value;
  criticals : nat;
  warningsOfFile : nat;
  suggestionsOfFile : nat
}.

(** *** The severity markers of [getSeverityEmoji] *)

Definition markCritical : string := "🔴".
Definition markWarning : string := "🟡".
Definition markSuggestion : string := "💡".
Definition markInfo : string := "ℹ️".
Definition markDefault : string := "📝".

Definition getSeverityEmoji (severity : option Value) : string :=
  match severity with
  | Some (JStr s) =>
      if String.eqb s "critical" then markCritical
      else if String.eqb s "warning" then markWarning
      else if String.eqb s "suggestion" then markSuggestion
      else if String.eqb s "info" then markInfo
      else markDefault
  | _ => markDefault
  end.

(** [r.severity === a || r.severity === b || ...] *)
Definition severityIn (names : list string) (r : Value) : Outcome bool :=
  bindO (getProp r "severity") (fun severity =>
  Returned match severity with
           | Some (JStr s) => existsb (String.eqb s) names
           | _ => false
           end).

(** [reviews.filter(pred).length] *)
Definition countWhere (pred : Value -> Outcome bool) (reviews : list Value) : Outcome nat :=
  bindO (filterO pred reviews) (fun kept => Returned (List.length kept)).

(** an issue with its [suggestion] field taken away *)
Definition withoutSuggestion (issue : Value) : Value :=
  match issue with
  | JObj fields =>
      JObj (filter (fun kv => negb (String.eqb (fst kv) "suggestion")) fields)
  | _ => issue
  end.

(** [file.patch || ""] *)
Definition patchText (file : PullRequestFile) : string :=
  match patch file with
  | Some p => p
  | None => ""
  end.

(** [prDetails.body || undefined] *)
Definition descriptionOf (prDetails : PRDetails) : option string :=
  if truthyStr (prBody prDetails) then prBody prDetails else None.

Definition natToString (n : nat) : string :=
  NilZero.string_of_uint (Nat.to_uint n).

Section WithRuntime.
Context {rt : Runtime}.

(** [issue.category ? `**${issue.category.toUpperCase()}**` : ""]; a
    truthy category that is no string has no [toUpperCase] to call. *)
Definition categoryLabelOf (category : option Value) : Outcome string :=
  if truthy category then
    match category with
    | Some (JStr s) => Returned ("**" ++ String_toUpperCase s ++ "**")
    | _ => Thrown TypeError
    end
  else Returned "".

(** [[head, "", issue.message].filter(Boolean).join("\n")] *)
Definition commentBody (severityEmoji categoryLabel : string)
           (message : option Value) : string :=
  joinWith (String LF "")
    (map joinElement
       (filter truthy
          [Some (JStr (severityEmoji ++ " " ++ categoryLabel));
           Some (JStr "");
           message])).

(** [this.mapLineToDiff(issue.line, patchLines)]; a [line] that is no
    number is never [===] the counter. *)
Definition mapIssueLine (line : option Value) (patchLines : list string) : option Z :=
  match line with
  | Some (JNum n) => mapLineToDiff n patchLines
  | _ => None
  end.

(** One turn of the loop of [createReviewComments]: [None] is [continue]. *)
Definition commentOfIssue (filePath : string) (patchLines : list string)
           (issue : Value) : Outcome (option ReviewComment) :=
  bindO (getProp issue "line") (fun issueLine =>
  match mapIssueLine issueLine patchLines with
  | None => Returned None
  | Some lineNumber =>
      if Z.eqb lineNumber 0 then Returned None
      else
        bindO (getProp issue "severity") (fun severity =>
        let severityEmoji := getSeverityEmoji severity in
        bindO (getProp issue "category") (fun category =>
        bindO (categoryLabelOf category) (fun categoryLabel =>
        bindO (getProp issue "message") (fun message =>
        Returned (Some (mkComment filePath lineNumber
                          (commentBody severityEmoji categoryLabel message)
                          "RIGHT"))))))
  end).

Fixpoint commentsLoop (filePath : string) (patchLines : list string)
         (issues : list Value) (acc : list ReviewComment)
  : Outcome (list ReviewComment) :=
  match issues with
  | [] => Returned acc
  | issue :: rest =>
      bindO (commentOfIssue filePath patchLines issue) (fun c =>
      commentsLoop filePath patchLines rest
        match c with
        | Some comment => (acc ++ [comment])%list
        | None => acc
        end)
  end.

Definition createReviewComments (filePath : string) (issues : list Value)
           (patchText : string) : Outcome (list ReviewComment) :=
  commentsLoop filePath (split_lines patchText) issues [].

(** [formatReviewBody]; only [filePath] and [issueCount] of each file
    result are read. *)
Definition statsOf (criticalIssues warnings suggestions : nat) : list string :=
  filter (fun s => negb (String.eqb s ""))
    [ if (0 <? criticalIssues)%nat
      then markCritical ++ " " ++ natToString criticalIssues ++ " critical" else "";
      if (0 <? warnings)%nat
      then markWarning ++ " " ++ natToString warnings ++ " warnings" else "";
      if (0 <? suggestions)%nat
      then markSuggestion ++ " " ++ natToString suggestions ++ " suggestions" else "" ].

Definition fileLine (r : FileResult) : string :=
  "- " ++ filePath r ++
  (if (0 <? issueCount r)%nat
   then " (" ++ natToString (issueCount r) ++ " comment"
        ++ (if (1 <? issueCount r)%nat then "s" else "") ++ ")"
   else "").

Definition formatReviewBody (summary : string) (fileResults : list FileResult)
           (criticalIssues warnings suggestions : nat) : string :=
  let stats := statsOf criticalIssues warnings suggestions in
  let nl := String LF "" in
  "## Open Review" ++ nl ++ nl ++ summary ++ nl ++ nl ++
  "### Summary" ++ nl ++
  (match stats with [] => "✅ No issues found" | _ => joinWith " | " stats end)
  ++ nl ++ nl ++
  "### Files Reviewed" ++ nl ++
  joinWith nl (map fileLine fileResults) ++ nl ++ nl ++
  "---" ++ nl ++
  "*This review was generated by AI. Please review the suggestions carefully before applying them.*".

Definition approvalBody (overallSummary : string) : string :=
  let nl := String LF "" in
  "## ✅ AI Code Review Complete" ++ nl ++ nl ++ overallSummary ++ nl ++ nl ++
  "**No issues found!** Great job! 🎉".

(** *** The collaborators and the effects of a run

    The VCS client ([../github/client]) and the completion request behind
    [withRetry] are outside the code modelled here: each call hands the
    outside world over and gets the next one back with its outcome.  Every
    call is written to a log in the order it is made. *)

Definition SummaryInput : Type := (string * Value * nat)%type.

Inductive Event :=
| CallGetPRDetails
| CallGetChangedFiles (patterns : list string)
| CallReviewCode (file diff : string)
| CallGenerateSummary (fileReviews : list SummaryInput)
| CallCreateReview (posted : list ReviewComment) (text event : string)
| CallPostReviewComments (posted : list ReviewComment)
| CallPostGeneralComment (text : string).

(** a file of the loop is skipped, fails in review, or is reviewed *)
Inductive Fate := SkippedFile | FailedFile | ReviewedFile.

Class Collaborators (World : Type) := mkCollaborators {
  getPRDetails : World -> World * Outcome PRDetails;
  getChangedFiles : list string -> World -> World * Outcome (list PullRequestFile);
  postReviewComments : list ReviewComment -> World -> World * Outcome unit;
  postGeneralComment : string -> World -> World * Outcome unit;
  createReview : list ReviewComment -> string -> string -> World -> World * Outcome unit;
  (** [withRetry(() => chat.completions.create(...))] of [reviewCode],
      followed by [response.choices[0]?.message?.content] *)
  chatReview : string -> string -> string -> option string -> option string ->
               World -> World * Outcome (option string);
  (** the same request of [generateSummary] *)
  chatSummary : list SummaryInput -> string -> World -> World * Outcome (option string)
}.

Record State (World : Type) := mkState { world : World; log : list Event }.
Arguments mkState {World} world log.
Arguments world {World} s.
Arguments log {World} s.

Definition M (World A : Type) : Type := State World -> State World * Outcome A.

Section WithWorld.
Context {World : Type} {co : Collaborators World}.

Definition ret {A} (a : A) : M World A := fun st => (st, Returned a).

Definition throw {A} (e : Error) : M World A := fun st => (st, Thrown e).

Definition bindM {A B} (m : M World A) (k : A -> M World B) : M World B :=
  fun st =>
    match m st with
    | (st', Returned a) => k a st'
    | (st', Thrown e) => (st', Thrown e)
    end.

(** [try { await m } catch (e) { h e }] *)
Definition tryCatch {A} (m : M World A) (h : Error -> M World A) : M World A :=
  fun st =>
    match m st with
    | (st', Returned a) => (st', Returned a)
    | (st', Thrown e) => h e st'
    end.

(** a computation of the code that touches no collaborator *)
Definition lift {A} (o : Outcome A) : M World A := fun st => (st, o).

(** an awaited call to a collaborator *)
Definition perform {A} (ev : Event) (op : World -> World * Outcome A) : M World A :=
  fun st =>
    let (w, r) := op (world st) in
    (mkState w (log st ++ [ev])%list, r).

Local Notation "x <- m ;; k" := (bindM m (fun x => k))
  (at level 61, m at next level, right associativity).

(** *** [LLMClient.reviewCode] and [LLMClient.generateSummary] *)

Definition reviewCode (file diff systemPrompt : string)
           (prTitle prDescription : option string) : M World ReviewResult :=
  tryCatch
    (content <- perform (CallReviewCode file diff)
                  (chatReview file diff systemPrompt prTitle prDescription) ;;
     if negb (truthyStr content)
     then ret (mkResult [] (JStr "No review generated"))
     else lift (parseReviewResponse (match content with Some c => c | None => "" end) file))
    (fun e => throw e).

Definition generateSummary (fileReviews : list SummaryInput)
           (systemPrompt : string) : M World string :=
  tryCatch
    (content <- perform (CallGenerateSummary fileReviews)
                  (chatSummary fileReviews systemPrompt) ;;
     ret (match content with
          | Some c => if truthyStr content then c else "Review completed"
          | None => "Review completed"
          end))
    (fun _ => ret ("Reviewed " ++ natToString (List.length fileReviews) ++ " file(s)")).

(** *** [ReviewOrchestrator] *)

Variable config : Config.

Definition reviewFile (file : PullRequestFile)
           (prTitle prDescription : option string) : M World FileReview :=
  result <- reviewCode (filename file) (patchText file) (prompt config)
              prTitle prDescription ;;
  comments <- lift (createReviewComments (filename file) (reviews result)
                      (patchText file)) ;;
  criticalCount <- lift (countWhere (severityIn ["critical"]) (reviews result)) ;;
  warningCount <- lift (countWhere (severityIn ["warning"]) (reviews result)) ;;
  suggestionCount <- lift (countWhere (severityIn ["suggestion"; "info"]) (reviews result)) ;;
  ret (mkFileReview comments (summary result) criticalCount warningCount suggestionCount).

(** [file.status === "removed" || !file.patch] *)
Definition skipped (file : PullRequestFile) : bool :=
  String.eqb (status file) "removed" || negb (truthyStr (patch file)).

Definition Accumulated : Type := (list ReviewComment * list FileResult)%type.

(** the body of [try] in the loop: both accumulators grow *)
Definition record (file : PullRequestFile) (acc : Accumulated)
           (result : FileReview) : Accumulated :=
  ((fst acc ++ comments result)%list,
   (snd acc ++ [mkFileResult (filename file) (reviewSummary result)
                  (List.length (comments result))
                  (criticals result) (warningsOfFile result)
                  (suggestionsOfFile result)])%list).

(** [for (const file of filesToReview) { ... }] over [allComments] and
    [fileResults] *)
Fixpoint reviewLoop (prDetails : PRDetails) (files : list PullRequestFile)
         (acc : Accumulated) : M World Accumulated :=
  match files with
  | [] => ret acc
  | file :: rest =>
      if skipped file then reviewLoop prDetails rest acc
      else
        acc' <- tryCatch
                  (result <- reviewFile file (Some (title prDetails))
                               (descriptionOf prDetails) ;;
                   ret (record file acc result))
                  (fun _ => ret acc) ;;
        reviewLoop prDetails rest acc'
  end.

(** What became of each file the loop went through, in order. *)
Fixpoint fates (prDetails : PRDetails) (files : list PullRequestFile)
         (st : State World) : list Fate :=
  match files with
  | [] => []
  | file :: rest =>
      if skipped file then SkippedFile :: fates prDetails rest st
      else
        match reviewFile file (Some (title prDetails)) (descriptionOf prDetails) st with
        | (st', Returned _) => ReviewedFile :: fates prDetails rest st'
        | (st', Thrown _) => FailedFile :: fates prDetails rest st'
        end
  end.

Definition isReviewed (f : Fate) : bool :=
  match f with ReviewedFile => true | _ => false end.

(** the files of the loop whose review completed, in order *)
Definition reviewedOf (files : list PullRequestFile) (fs : list Fate)
  : list PullRequestFile :=
  map fst (filter (fun p => isReviewed (snd p)) (combine files fs)).

(** the event of the review request for a file *)
Definition reviewCallOf (file : PullRequestFile) : Event :=
  CallReviewCode (filename file) (patchText file).

(** the calls to the review engine among the events of a log *)
Definition reviewCalls (events : list Event) : list Event :=
  filter (fun ev => match ev with CallReviewCode _ _ => true | _ => false end) events.

(** [this.config.maxFiles > 0 ? files.slice(0, this.config.maxFiles) : files] *)
Definition filesToReview (files : list PullRequestFile) : list PullRequestFile :=
  if 0 <? maxFiles config then firstn (Z.to_nat (maxFiles config)) files else files.

(** the state once the details and the files of the pull request are in *)
Definition fetched (st : State World) (w : World) : State World :=
  mkState w (log st ++ [CallGetPRDetails;
                        CallGetChangedFiles (excludePatterns config)])%list.

Definition emptyReport : ReviewSummary :=
  mkSummary 0 0 0 0 0 0 "No files to review".

Definition sumOf (f : FileResult -> nat) (fileResults : list FileResult) : nat :=
  fold_left (fun sum r => (sum + f r)%nat) fileResults 0%nat.

(** the object that [runReview] returns at its end *)
Definition reportOf (files : list PullRequestFile) (acc : Accumulated)
           (overallSummary : string) : ReviewSummary :=
  mkSummary (List.length files) (List.length (snd acc)) (List.length (fst acc))
            (sumOf criticalCount (snd acc)) (sumOf warningCount (snd acc))
            (sumOf suggestionCount (snd acc)) overallSummary.

(** the posting step, by [totalComments] and [config.postAsReview] *)
Definition postReview (allComments : list ReviewComment)
           (fileResults : list FileResult) (overallSummary : string)
           (criticalIssues warnings suggestions : nat) : M World unit :=
  if (0 <? List.length allComments)%nat then
    let reviewBody :=
      formatReviewBody overallSummary fileResults criticalIssues warnings suggestions in
    if postAsReview config then
      perform (CallCreateReview allComments reviewBody "COMMENT")
              (createReview allComments reviewBody "COMMENT")
    else
      _ <- perform (CallPostReviewComments allComments)
                   (postReviewComments allComments) ;;
      perform (CallPostGeneralComment reviewBody) (postGeneralComment reviewBody)
  else
    let text := approvalBody overallSummary in
    if postAsReview config then
      perform (CallCreateReview [] text "APPROVE") (createReview [] text "APPROVE")
    else
      perform (CallPostGeneralComment text) (postGeneralComment text).

Definition runReview : M World ReviewSummary :=
  prDetails <- perform CallGetPRDetails getPRDetails ;;
  files <- perform (CallGetChangedFiles (excludePatterns config))
                   (getChangedFiles (excludePatterns config)) ;;
  if (List.length files =? 0)%nat then ret emptyReport
  else
    acc <- reviewLoop prDetails (filesToReview files) ([], []) ;;
    let allComments := fst acc in
    let fileResults := snd acc in
    overallSummary <- generateSummary
                        (map (fun r => (filePath r, fileSummary r, issueCount r)) fileResults)
                        (prompt config) ;;
    let totalComments := List.length allComments in
    let criticalIssues := sumOf criticalCount fileResults in
    let warnings := sumOf warningCount fileResults in
    let suggestions := sumOf suggestionCount fileResults in
    _ <- postReview allComments fileResults overallSummary
                    criticalIssues warnings suggestions ;;
    ret (mkSummary (List.length files) (List.length fileResults) totalComments
                   criticalIssues warnings suggestions overallSummary).

End WithWorld.

End WithRuntime.

Arguments mkState {World} world log.
Arguments world {World} s.
Arguments log {World} s.

End Orchestrator.

(* ================================================================== *)
(** ** A runtime and collaborators to run the model on                 *)
(* ================================================================== *)

(** The statements below hold for every [Runtime] and every
    [Collaborators]; this module gives one of each, to evaluate the code
    on concrete inputs.  The decoder reads JSON without [\u] escapes, trims
    ASCII white space and maps ASCII letters to upper case. *)

Module Sample.
Import Str Js Validator DiffLineMapper Orchestrator.

Definition DQ : ascii := ascii_of_nat 34.
Definition BACKSLASH : ascii := ascii_of_nat 92.

(** sample texts are written with ['] where the text has a double quote *)
Fixpoint quoted (s : string) : string :=
  match s with
  | EmptyString => EmptyString
  | String c r => String (if Ascii.eqb c "'" then DQ else c) (quoted r)
  end.

Definition isJsonSpace (c : ascii) : bool :=
  let n := nat_of_ascii c in
  (n =? 32)%nat || (n =? 9)%nat || (n =? 10)%nat || (n =? 13)%nat.

Definition isTrimSpace (c : ascii) : bool :=
  let n := nat_of_ascii c in
  (n =? 32)%nat || ((9 <=? n)%nat && (n <=? 13)%nat).

Fixpoint dropWhile (p : ascii -> bool) (s : string) : string :=
  match s with
  | EmptyString => EmptyString
  | String c r => if p c then dropWhile p r else s
  end.

Fixpoint reverse (acc s : string) : string :=
  match s with
  | EmptyString => acc
  | String c r => reverse (String c acc) r
  end.

Definition trim (s : string) : string :=
  reverse "" (dropWhile isTrimSpace (reverse "" (dropWhile isTrimSpace s))).

Definition upper (c : ascii) : ascii :=
  let n := nat_of_ascii c in
  if (97 <=? n)%nat && (n <=? 122)%nat then ascii_of_nat (n - 32) else c.

Fixpoint toUpperCase (s : string) : string :=
  match s with
  | EmptyString => EmptyString
  | String c r => String (upper c) (toUpperCase r)
  end.

(** integers print in decimal, other numbers as a reduced fraction *)
Definition numberToString (n : Q) : string :=
  let r := Qred n in
  let num := NilZero.string_of_int (Z.to_int (Qnum r)) in
  if Pos.eqb (Qden r) 1 then num
  else num ++ "/" ++ NilZero.string_of_uint (Pos.to_uint (Qden r)).

(** the characters of a JSON string after its opening quote *)
Fixpoint decodeString (s : string) : option (string * string) :=
  match s with
  | EmptyString => None
  | String c r =>
      if Ascii.eqb c DQ then Some (EmptyString, r)
      else if Ascii.eqb c BACKSLASH then
        match r with
        | EmptyString => None
        | String e r2 =>
            let plain (x : ascii) :=
              option_map (fun '(t, rest) => (String x t, rest)) (decodeString r2) in
            if Ascii.eqb e DQ then plain DQ
            else if Ascii.eqb e BACKSLASH then plain BACKSLASH
            else if Ascii.eqb e "/" then plain "/"%char
            else if Ascii.eqb e "b" then plain (ascii_of_nat 8)
            else if Ascii.eqb e "f" then plain (ascii_of_nat 12)
            else if Ascii.eqb e "n" then plain (ascii_of_nat 10)
            else if Ascii.eqb e "r" then plain (ascii_of_nat 13)
            else if Ascii.eqb e "t" then plain (ascii_of_nat 9)
            else None
        end
      else if (nat_of_ascii c <? 32)%nat then None
      else option_map (fun '(t, rest) => (String c t, rest)) (decodeString r)
  end.

(** a JSON number: sign, whole part without leading zero, optional
    fraction, optional exponent *)
Definition decodeNumber (s : string) : option (Q * string) :=
  let (negative, s1) :=
    match s with
    | String "-" r => (true, r)
    | _ => (false, s)
    end in
  match takeDigits s1 with
  | (EmptyString, _) => None
  | (whole, s2) =>
      if startsWith "0" whole && negb (String.eqb whole "0") then None
      else
        let fraction :=
          match s2 with
          | String "." r =>
              match takeDigits r with
              | (EmptyString, _) => None
              | (f, s3) => Some (f, s3)
              end
          | _ => Some (EmptyString, s2)
          end in
        match fraction with
        | None => None
        | Some (f, s3) =>
            let exponent :=
              match s3 with
              | String c r =>
                  if Ascii.eqb c "e" || Ascii.eqb c "E" then
                    let (sign, r') :=
                      match r with
                      | String "-" r' => (-1, r')
                      | String "+" r' => (1, r')
                      | _ => (1, r)
                      end in
                    match takeDigits r' with
                    | (EmptyString, _) => None
                    | (e, s4) => Some (sign * parseInt e, s4)
                    end
                  else Some (0, s3)
              | EmptyString => Some (0, s3)
              end in
            match exponent with
            | None => None
            | Some (e, s4) =>
                let mantissa := parseInt (whole ++ f) in
                let scale := e - Z.of_nat (String.length f) in
                let magnitude :=
                  if 0 <=? scale then inject_Z (mantissa * 10 ^ scale)
                  else Qmake mantissa (Z.to_pos (10 ^ (- scale))) in
                Some (Qred (if negative then Qopp magnitude else magnitude), s4)
            end
        end
  end.

(** a later binding of a key replaces the earlier one *)
Fixpoint setField (k : string) (v : Value) (fields : list (string * Value))
  : list (string * Value) :=
  match fields with
  | [] => [(k, v)]
  | (k', v') :: rest =>
      if String.eqb k k' then (k, v) :: rest else (k', v') :: setField k v rest
  end.

Fixpoint decodeValue (fuel : nat) (s : string) {struct fuel} : option (Value * string) :=
  match fuel with
  | O => None
  | S fuel' =>
      match dropWhile isJsonSpace s with
      | EmptyString => None
      | String c r as s' =>
          if Ascii.eqb c "{" then
            match dropWhile isJsonSpace r with
            | String "}" r' => Some (JObj [], r')
            | r' => decodeMembers fuel' r' []
            end
          else if Ascii.eqb c "[" then
            match dropWhile isJsonSpace r with
            | String "]" r' => Some (JArr [], r')
            | r' => decodeElements fuel' r' []
            end
          else if Ascii.eqb c DQ then
            option_map (fun '(t, rest) => (JStr t, rest)) (decodeString r)
          else
            match stripPrefix "true" s', stripPrefix "false" s', stripPrefix "null" s' with
            | Some rest, _, _ => Some (JBool true, rest)
            | _, Some rest, _ => Some (JBool false, rest)
            | _, _, Some rest => Some (JNull, rest)
            | _, _, _ => option_map (fun '(n, rest) => (JNum n, rest)) (decodeNumber s')
            end
      end
  end
with decodeMembers (fuel : nat) (s : string) (acc : list (string * Value))
       {struct fuel} : option (Value * string) :=
  match fuel with
  | O => None
  | S fuel' =>
      match s with
      | String c r =>
          if Ascii.eqb c DQ then
            match decodeString r with
            | None => None
            | Some (k, r1) =>
                match dropWhile isJsonSpace r1 with
                | String ":" r2 =>
                    match decodeValue fuel' r2 with
                    | None => None
                    | Some (v, r3) =>
                        match dropWhile isJsonSpace r3 with
                        | String "," r4 =>
                            decodeMembers fuel' (dropWhile isJsonSpace r4) (setField k v acc)
                        | String "}" r4 => Some (JObj (setField k v acc), r4)
                        | _ => None
                        end
                    end
                | _ => None
                end
            end
          else None
      | EmptyString => None
      end
  end
with decodeElements (fuel : nat) (s : string) (acc : list Value)
       {struct fuel} : option (Value * string) :=
  match fuel with
  | O => None
  | S fuel' =>
      match decodeValue fuel' s with
      | None => None
      | Some (v, r1) =>
          match dropWhile isJsonSpace r1 with
          | String "," r2 => decodeElements fuel' r2 (acc ++ [v])%list
          | String "]" r2 => Some (JArr (acc ++ [v])%list, r2)
          | _ => None
          end
      end
  end.

Definition decode (text : string) : Outcome Value :=
  match decodeValue (S (String.length text)) text with
  | Some (v, rest) =>
      match dropWhile isJsonSpace rest with
      | EmptyString => Returned v
      | _ => Thrown SyntaxError
      end
  | None => Thrown SyntaxError
  end.

Definition runtime : Runtime := mkRuntime decode trim toUpperCase numberToString.

(** the hunk of the specification's example: a context line, an added
    line, a removed line and an added line after [@@ -5,3 +10,4 @@] *)
Definition hunk10 : Hunk :=
  mkHunk "@@ -5,3 +10,4 @@" 10 [" ctx"; "+a"; "-r"; "+b"].

Definition diff10 : UnifiedDiff := mkDiff [] [hunk10].

Definition patch10 : string := join_lines (render diff10).

(** two findings: line 11 is an added line of [patch10], line 10 is its
    context line *)
Definition reply : string :=
  quoted ("{'reviews':[" ++
          "{'line':11,'severity':'critical','category':'security','message':'m','suggestion':'s'}," ++
          "{'line':10,'severity':'warning','message':'w'}]," ++
          "'summary':'ok'}").

(** a finding on the added line 11 that has no [severity] *)
Definition bare : Value := JObj [("line", JNum 11); ("message", JStr "m")].

Definition changed (name : string) : PullRequestFile :=
  mkFile name "modified" (Some patch10).

Definition fiveFiles : list PullRequestFile :=
  [changed "a.ts"; changed "b.ts"; changed "c.ts"; changed "d.ts"; changed "e.ts"].

Definition samplePR : PRDetails := mkPRDetails "Sample change" None.

(** The outside world counts the calls made so far.  The completion
    request fails for the file [broken.ts] and answers [reply] otherwise. *)
Definition collaborators (files : list PullRequestFile) : Collaborators nat :=
  mkCollaborators nat
    (fun w => (S w, Returned samplePR))
    (fun _ w => (S w, Returned files))
    (fun _ w => (S w, Returned tt))
    (fun _ w => (S w, Returned tt))
    (fun _ _ _ w => (S w, Returned tt))
    (fun file _ _ _ _ w =>
       (S w, if String.eqb file "broken.ts"
             then Thrown (ServiceError "503")
             else Returned (Some reply)))
    (fun _ _ w => (S w, Returned (Some "Looks fine"))).

Definition config (limit : Z) : Config := mkConfig [] limit "Review this" true.

Definition start : State nat := mkState 0%nat [].

End Sample.

(* ================================================================== *)
(** ** Predicates on texts, to state properties with                    *)
(* ================================================================== *)

Module Text.
Import Str.

(** the character [c] occurs in [s] *)
Fixpoint hasChar (c : ascii) (s : string) : bool :=
  match s with
  | EmptyString => false
  | String x r => Ascii.eqb x c || hasChar c r
  end.


(** the first [n] characters of [s] taken away *)
Fixpoint dropChars (n : nat) (s : string) : string :=
  match n, s with
  | O, _ => s
  | S k, String _ r => dropChars k r
  | S _, EmptyString => EmptyString
  end.

Definition BACKTICK : ascii := ascii_of_nat 96.

End Text.

(* ================================================================== *)
(** ** [LLMClient]: the constructor and [buildReviewPrompt]             *)
(* ================================================================== *)

Module Client.
Import Str Js Orchestrator.

(** [s.endsWith(p)]: some tail of [s] is [p] *)
Fixpoint endsWith (p s : string) : bool :=
  String.eqb s p
  || match s with
     | EmptyString => false
     | String _ r => endsWith p r
     end.

(** [s.replace(/\/$/, '')]: a slash that ends the text is removed *)
Fixpoint dropFinalSlash (s : string) : string :=
  match s with
  | EmptyString => EmptyString
  | String c r =>
      if Ascii.eqb c "/" && String.eqb r "" then EmptyString
      else String c (dropFinalSlash r)
  end.

(** the base URL the constructor hands to the client library *)
Definition normalizeBaseURL (baseURL : string) : string :=
  if endsWith "/v1" baseURL then baseURL
  else dropFinalSlash baseURL ++ "/v1".

Fixpoint spaces (n : nat) : string :=
  match n with
  | O => EmptyString
  | S k => String " " (spaces k)
  end.

(** [s.padStart(4, ' ')] *)
Definition padStart4 (s : string) : string :=
  spaces (4 - String.length s) ++ s.

(** the callback of [map] in [buildReviewPrompt], at array index [index] *)
Definition numberLine (index : nat) (line : string) : string :=
  padStart4 (natToString (index + 1)) ++ ": " ++ line.

(** [lines.map((line, index) => ...)], from array index [index] on *)
Fixpoint numberFrom (index : nat) (lines : list string) : list string :=
  match lines with
  | [] => []
  | line :: rest => numberLine index line :: numberFrom (S index) rest
  end.

Definition numberedDiff (diff : string) : string :=
  join_lines (numberFrom 0 (split_lines diff)).

(** the lines of [context]: the file, then the title and the description
    of the pull request where they are there and not empty *)
Definition contextLines (file : string) (prTitle prDescription : option string)
  : list string :=
  filter (fun s => negb (String.eqb s ""))
    [ "File: " ++ file;
      if truthyStr prTitle
      then "PR Title: " ++ match prTitle with Some t => t | None => "" end
      else "";
      if truthyStr prDescription
      then "PR Description: " ++ match prDescription with Some t => t | None => "" end
      else "" ].

Definition DQ : string := String (ascii_of_nat 34) "".

Definition promptInstructions : string :=
  let nl := String LF "" in
  "IMPORTANT: The line numbers shown above are for reference only. When providing feedback:" ++ nl ++
  "- The " ++ DQ ++ "line" ++ DQ ++ " field should be the actual line number in the new file (counting added lines only)" ++ nl ++
  "- If you suggest a fix, the suggestion MUST replace the exact line you're commenting on" ++ nl ++
  "- Example: If commenting on line 18 (timeout-minutes: 10), the suggestion should be a replacement for that specific line" ++ nl ++ nl ++
  "Please review the code changes above and provide feedback in the specified JSON format.".

Definition buildReviewPrompt (file diff : string)
           (prTitle prDescription : option string) : string :=
  let nl := String LF "" in
  join_lines (contextLines file prTitle prDescription) ++ nl ++ nl ++
  "Code Changes (diff with line numbers):" ++ nl ++
  numberedDiff diff ++ nl ++ nl ++
  promptInstructions.

End Client.

(* ================================================================== *)
(** ** The shape of a comment                                           *)
(* ================================================================== *)

Module CommentShape.
Import Str DiffLineMapper Orchestrator.

(** A comment is well placed for a file and the lines of its patch when it
    names the file, is on the right side, and its line is the 1-based
    index of an added line of the patch. *)
Definition wellPlaced (file : string) (patchLines : list string)
           (c : ReviewComment) : bool :=
  String.eqb (path c) file
  && String.eqb (side c) "RIGHT"
  && (1 <=? line c)
  && (line c <=? Z.of_nat (List.length patchLines))
  && match nth_error patchLines (Z.to_nat (line c - 1)) with
     | Some l => match tagOf l with Added => true | _ => false end
     | None => false
     end.

(** the categories a comment cannot be made with: truthy and no text *)
Definition badCategory (category : option Js.Value) : bool :=
  Js.truthy category
  && match category with
     | Some (Js.JStr _) => false
     | _ => true
     end.

End CommentShape.

(* ================================================================== *)
(** ** The text of a hunk header                                        *)
(* ================================================================== *)

Module HeaderText.
Import Str Text Orchestrator.



End HeaderText.

(* ================================================================== *)
(** ** [loadConfig] of [src/config.ts]                                  *)
(* ================================================================== *)

Module ConfigLoader.
Import Str Js.

(** What [loadConfig] evaluates to: the configuration, or a thrown
    [Error] with its message. *)
Inductive Loaded (A : Type) :=
| Ok (a : A)
| Fail (message : string).

Arguments Ok {A} a.
Arguments Fail {A} message.

Definition bindL {A B} (m : Loaded A) (k : A -> Loaded B) : Loaded B :=
  match m with
  | Ok a => k a
  | Fail message => Fail message
  end.

(** What the code does not define itself: the inputs of the action as
    [core.getInput] gives them, the protocol of a URL as [new URL] reads
    it, and the texts of [DEFAULT_PROMPTS]. *)
Class Environment := mkEnvironment {
  (** [core.getInput(name, {required})]: the text of the input, or the
      error thrown for a required input that is not supplied *)
  getInput : string -> bool -> Loaded string;
  (** [new URL(text).protocol], [None] where the constructor throws *)
  urlProtocol : string -> option string;
  (** [DEFAULT_PROMPTS[mode]] for a mode of [validModes] *)
  defaultPrompt : string -> string
}.

(** the configuration; [maxFiles] is [None] where [parseInt] gives [NaN] *)
Record Config := mkConfig {
  llmBaseUrl : string;
  llmModel : string;
  llmApiKey : string;
  prompt : string;
  githubToken : string;
  reviewMode : string;
  maxFiles : option Z;
  excludePatterns : list string;
  failOnError : bool;
  postAsReview : bool
}.

Definition isWhiteSpace (c : ascii) : bool :=
  let n := nat_of_ascii c in
  (n =? 32)%nat || ((9 <=? n)%nat && (n <=? 13)%nat).

Fixpoint skipWhiteSpace (s : string) : string :=
  match s with
  | EmptyString => EmptyString
  | String c r => if isWhiteSpace c then skipWhiteSpace r else s
  end.

(** [parseInt(s, 10)]: white space, a sign, then digits up to the first
    character that is none; [None] is [NaN].  The white space is the ASCII
    part of what the language skips. *)
Definition parseInt10 (s : string) : option Z :=
  let s1 := skipWhiteSpace s in
  let (negative, s2) :=
    match s1 with
    | String "-" r => (true, r)
    | String "+" r => (false, r)
    | _ => (false, s1)
    end in
  match takeDigits s2 with
  | (EmptyString, _) => None
  | (d, _) => Some (if negative then - parseInt d else parseInt d)
  end.

(** [s.split(sep)] for a separator of one character *)
Fixpoint splitOn (sep : ascii) (s : string) : list string :=
  match s with
  | EmptyString => [EmptyString]
  | String c r =>
      if Ascii.eqb c sep then EmptyString :: splitOn sep r
      else match splitOn sep r with
           | [] => [String c EmptyString]
           | p :: ps => String c p :: ps
           end
  end.

Definition validModes : list string :=
  ["summary"; "detailed"; "security"; "performance"].

Definition defaultExcludePatterns : list string :=
  ["*.lock"; "*.min.js"; "*.min.css"; "dist/**"; "build/**";
   "node_modules/**"; "coverage/**"].

(** [v || d] on texts *)
Definition orText (v d : string) : string :=
  if String.eqb v "" then d else v.

Section WithEnvironment.
Context {rt : Runtime} {env : Environment}.

(** the [try] block around [new URL]: whatever is thrown inside, the
    message of the error that leaves it names the URL *)
Definition checkUrl (llmBaseUrl : string) : Loaded unit :=
  match urlProtocol llmBaseUrl with
  | Some protocol =>
      if negb (String.eqb protocol "https:") && negb (String.eqb protocol "http:")
      then Fail ("Invalid LLM_BASE_URL: " ++ llmBaseUrl)
      else Ok tt
  | None => Fail ("Invalid LLM_BASE_URL: " ++ llmBaseUrl)
  end.

(** [input.split(',').map(p => p.trim()).filter(Boolean)], or the default
    list for an input that is empty *)
Definition parsePatterns (excludePatternsInput : string) : list string :=
  if String.eqb excludePatternsInput "" then defaultExcludePatterns
  else filter (fun p => negb (String.eqb p ""))
         (map String_trim (splitOn "," excludePatternsInput)).

(** [loadConfig]; the calls of [core.setSecret] and [core.info] are left
    out, they return nothing the code reads. *)
Definition loadConfig : Loaded Config :=
  bindL (getInput "LLM_BASE_URL" true) (fun llmBaseUrl =>
  bindL (getInput "LLM_MODEL" true) (fun llmModel =>
  bindL (getInput "LLM_API_KEY" true) (fun llmApiKey =>
  bindL (getInput "PROMPT" false) (fun customPrompt =>
  bindL (getInput "GITHUB_TOKEN" true) (fun githubToken =>
  bindL (getInput "REVIEW_MODE" false) (fun reviewModeInput =>
  let reviewMode := orText reviewModeInput "detailed" in
  bindL (getInput "MAX_FILES" false) (fun maxFilesInput =>
  let maxFiles := parseInt10 (orText maxFilesInput "50") in
  bindL (getInput "EXCLUDE_PATTERNS" false) (fun excludePatternsInput =>
  bindL (getInput "FAIL_ON_ERROR" false) (fun failOnErrorInput =>
  let failOnError := String.eqb failOnErrorInput "true" in
  bindL (getInput "POST_AS_REVIEW" false) (fun postAsReviewInput =>
  let postAsReview := negb (String.eqb postAsReviewInput "false") in
  if negb (existsb (String.eqb reviewMode) validModes) then
    Fail ("Invalid REVIEW_MODE: " ++ reviewMode ++ ". Must be one of: "
          ++ joinWith ", " validModes)
  else
    bindL (checkUrl llmBaseUrl) (fun _ =>
    let excludePatterns := parsePatterns excludePatternsInput in
    let prompt := orText customPrompt (defaultPrompt reviewMode) in
    Ok (mkConfig llmBaseUrl llmModel llmApiKey prompt githubToken reviewMode
                 maxFiles excludePatterns failOnError postAsReview)))))))))))).

End WithEnvironment.

(** the part of a loaded configuration that the orchestrator reads; its
    test [maxFiles > 0] fails for [NaN] as it does for 0 *)
Definition forOrchestrator (c : Config) : Orchestrator.Config :=
  Orchestrator.mkConfig (excludePatterns c)
    (match maxFiles c with Some n => n | None => 0 end)
    (prompt c) (postAsReview c).

End ConfigLoader.

(** inputs to run [loadConfig] on: a table of the inputs that are set *)
Module SampleInputs.
Import Str Js ConfigLoader.

Definition required : list string :=
  ["LLM_BASE_URL"; "LLM_MODEL"; "LLM_API_KEY"; "GITHUB_TOKEN"].

Fixpoint valueOf (name : string) (table : list (string * string)) : string :=
  match table with
  | [] => ""
  | (k, v) :: rest => if String.eqb name k then v else valueOf name rest
  end.

(** a text that starts with [http://] or [https://] has that protocol, any
    other text is refused *)
Definition protocolOf (url : string) : option string :=
  if startsWith "https://" url then Some "https:"
  else if startsWith "http://" url then Some "http:"
  else if startsWith "ftp://" url then Some "ftp:"
  else None.

Definition environment (table : list (string * string)) : Environment :=
  mkEnvironment
    (fun name isRequired =>
       let v := valueOf name table in
       if isRequired && String.eqb v ""
       then Fail ("Input required and not supplied: " ++ name)
       else Ok (Sample.trim v))
    protocolOf
    (fun mode => "Prompt of the mode " ++ mode).

Definition minimal : list (string * string) :=
  [("LLM_BASE_URL", "https://api.example.com/v1");
   ("LLM_MODEL", "model");
   ("LLM_API_KEY", "key");
   ("GITHUB_TOKEN", "token")].

End SampleInputs.

(** collaborators whose setup calls fail *)
Module SampleFailures.
Import Js Orchestrator.

(** the details of the pull request cannot be had *)
Definition noDetails : Collaborators nat :=
  mkCollaborators nat
    (fun w => (S w, Thrown (ServiceError "401")))
    (fun _ w => (S w, Returned []))
    (fun _ w => (S w, Returned tt))
    (fun _ w => (S w, Returned tt))
    (fun _ _ _ w => (S w, Returned tt))
    (fun _ _ _ _ _ w => (S w, Returned None))
    (fun _ _ w => (S w, Returned None)).

(** the list of files cannot be had *)
Definition noFiles : Collaborators nat :=
  mkCollaborators nat
    (fun w => (S w, Returned Sample.samplePR))
    (fun _ w => (S w, Thrown (ServiceError "404")))
    (fun _ w => (S w, Returned tt))
    (fun _ w => (S w, Returned tt))
    (fun _ _ _ w => (S w, Returned tt))
    (fun _ _ _ _ _ w => (S w, Returned None))
    (fun _ _ w => (S w, Returned None)).



End SampleFailures.

(* ================================================================== *)
(** * Properties                                                       *)
(* ================================================================== *)

Local Open Scope list_scope.

(** ** DiffLineMapper *)

Module DiffFacts.
Import Str DiffLineMapper.


Lemma noHeader_true (l : string) : noHeader l = true -> hunkMatch l = None.
Proof. unfold noHeader. destruct (hunkMatch l); congruence. Qed.


(** Lines before the first header leave the state alone. *)
Lemma mapLoop_outside (t : Q) (ls rest : list string) :
  forallb noHeader ls = true ->
  forall i cur,
    mapLoop t (ls ++ rest) i cur false
    = mapLoop t rest (i + Z.of_nat (List.length ls)) cur false.
Proof.
  induction ls as [|l ls IH]; intros Hno i cur.
  - simpl. f_equal. lia.
  - simpl in Hno. apply andb_true_iff in Hno as [Hl Hls].
    cbn [app mapLoop]. rewrite (noHeader_true _ Hl). cbn [negb].
    rewrite (IH Hls). f_equal. cbn [List.length]. lia.
Qed.







(** Whatever the diff, a position that is returned is the position of an
    added line. *)
Lemma mapLoop_returns_added (t : Q) (lines : list string) :
  forall i cur inHunk p,
    mapLoop t lines i cur inHunk = Some p ->
    i < p
    /\ exists line,
         nth_error lines (Z.to_nat (p - 1 - i)) = Some line
         /\ startsWith "+" line = true.
Proof.
  induction lines as [|l lines IH]; intros i cur inHunk p; [discriminate|].
  assert (Hnext : forall c b,
             mapLoop t lines (i + 1) c b = Some p ->
             i < p
             /\ exists line,
                  nth_error (l :: lines) (Z.to_nat (p - 1 - i)) = Some line
                  /\ startsWith "+" line = true).
  { intros c b H. destruct (IH _ _ _ _ H) as (Hlt & line & Hnth & Hplus).
    split; [lia|]. exists line. split; [|exact Hplus].
    replace (Z.to_nat (p - 1 - i)) with (S (Z.to_nat (p - 1 - (i + 1)))) by lia.
    exact Hnth. }
  cbn [mapLoop]. destruct (hunkMatch l); [apply Hnext|].
  destruct (negb inHunk); [apply Hnext|].
  destruct (startsWith "+" l) eqn:Hplus.
  - destruct (Qeq_bool (inject_Z (cur + 1)) t); [|apply Hnext].
    intros H; inversion H; subst. split; [lia|]. exists l.
    replace (Z.to_nat (i + 1 - 1 - i)) with 0%nat by lia. split; [reflexivity | exact Hplus].
  - destruct (negb (startsWith "-" l)); apply Hnext.
Qed.

Lemma mapLineToDiff_returns_added (t : Q) (patchLines : list string) (p : Z) :
  mapLineToDiff t patchLines = Some p ->
  exists line,
    nth_error patchLines (Z.to_nat (p - 1)) = Some line
    /\ startsWith "+" line = true.
Proof.
  intros H. destruct (mapLoop_returns_added _ _ _ _ _ _ H) as (_ & line & Hnth & Hplus).
  exists line. rewrite Z.sub_0_r in Hnth. split; assumption.
Qed.



(** The example of the specification: after [@@ -5,3 +10,4 @@], a context,
    an added, a removed and an added line. *)
Example mapLineToDiff_sample_hunk :
  map (fun n => mapLineToDiff (inject_Z n) (render Sample.diff10)) [9; 11; 12; 13]
  = [None; Some 3; Some 5; None].
Proof. reflexivity. Qed.

(** *** Targets below the first line *)

Lemma takeDigits_parse_nonneg (s : string) :
  forall d r acc,
    takeDigits s = (d, r) -> 0 <= acc -> 0 <= parseDigits acc d.
Proof.
  induction s as [|c s IH]; intros d r acc Ht Hacc.
  - inversion Ht; subst. exact Hacc.
  - cbn [takeDigits] in Ht. destruct (isDigit c) eqn:Hc.
    + destruct (takeDigits s) as [d' r'] eqn:Hs. inversion Ht; subst.
      cbn [parseDigits]. eapply IH; [reflexivity|].
      unfold isDigit in Hc. apply andb_true_iff in Hc as [Hlo _].
      apply Nat.leb_le in Hlo. lia.
    + inversion Ht; subst. exact Hacc.
Qed.

Lemma hunkMatchAt_nonneg (s g : string) :
  hunkMatchAt s = Some g -> 0 <= parseInt g.
Proof.
  unfold hunkMatchAt.
  destruct (stripPrefix "@@ -" s) as [r1|]; [|discriminate].
  destruct (takeDigits r1) as [[|c1 d1] r2]; [discriminate|].
  destruct (stripPrefix " +" (optCommaDigits r2)) as [r3|]; [|discriminate].
  destruct (takeDigits r3) as [[|c2 d2] r4] eqn:Hd; [discriminate|].
  destruct (stripPrefix " @@" (optCommaDigits r4)); [|discriminate].
  intros H; inversion H; subst.
  apply (takeDigits_parse_nonneg r3 _ r4 0 Hd). lia.
Qed.

(** A header never announces a negative start. *)
Lemma hunkMatch_nonneg (line : string) (n : Z) :
  hunkMatch line = Some n -> 0 <= n.
Proof.
  unfold hunkMatch. induction line as [|c line IH]; cbn [hunkSearch].
  - destruct (hunkMatchAt "") as [g|] eqn:Hg; cbn [option_map]; [|discriminate].
    intros H; inversion H; subst. eapply hunkMatchAt_nonneg; eassumption.
  - destruct (hunkMatchAt (String c line)) as [g|] eqn:Hg; cbn [option_map].
    + intros H; inversion H; subst. eapply hunkMatchAt_nonneg; eassumption.
    + exact IH.
Qed.

(** While every header starts above the target and the counter is at or
    above it, no added line can reach the target. *)
Lemma mapLoop_above (t : Q) (lines : list string) :
  (forall l n, In l lines -> hunkMatch l = Some n -> (t < inject_Z n)%Q) ->
  forall i cur inHunk,
    (t < inject_Z (cur + 1))%Q ->
    mapLoop t lines i cur inHunk = None.
Proof.
  induction lines as [|l lines IH]; intros Hhdr i cur inHunk Hcur; [reflexivity|].
  assert (Hrest : forall l' n, In l' lines -> hunkMatch l' = Some n -> (t < inject_Z n)%Q).
  { intros l' n Hin. apply Hhdr. right; exact Hin. }
  assert (Hstep : (t < inject_Z (cur + 1 + 1))%Q).
  { eapply Qlt_le_trans; [exact Hcur|]. rewrite <- Zle_Qle. lia. }
  cbn [mapLoop]. destruct (hunkMatch l) as [n|] eqn:Hl.
  - apply IH; [exact Hrest|].
    replace (n - 1 + 1) with n by lia. apply (Hhdr l n); [left; reflexivity | exact Hl].
  - destruct (negb inHunk); [apply IH; assumption|].
    destruct (startsWith "+" l).
    + destruct (Qeq_bool (inject_Z (cur + 1)) t) eqn:E.
      * apply Qeq_bool_eq in E. rewrite E in Hcur.
        exfalso. exact (Qlt_irrefl _ Hcur).
      * apply IH; assumption.
    + destruct (negb (startsWith "-" l)); apply IH; assumption.
Qed.

(** C5, as amended.  For every list of diff lines and every target below
    1, [mapLineToDiff] returns no position when the target is negative, or
    when no line of the diff reads as a hunk header with [newStart] 0.
    The function is total: it has no way to throw. *)
Theorem mapLineToDiff_below_one (t : Q) (patchLines : list string) :
  (t < 1)%Q ->
  (t < 0)%Q \/ Forall (fun l => hunkMatch l <> Some 0) patchLines ->
  mapLineToDiff t patchLines = None.
Proof.
  intros Hone Hcase. unfold mapLineToDiff. apply mapLoop_above.
  - intros l n Hin Hl. pose proof (hunkMatch_nonneg _ _ Hl) as Hn.
    destruct Hcase as [Hneg | Hno].
    + eapply Qlt_le_trans; [exact Hneg|].
      change 0%Q with (inject_Z 0). rewrite <- Zle_Qle. exact Hn.
    + rewrite Forall_forall in Hno. specialize (Hno l Hin).
      assert (n <> 0) by congruence.
      eapply Qlt_le_trans; [exact Hone|].
      change 1%Q with (inject_Z 1). rewrite <- Zle_Qle. lia.
  - exact Hone.
Qed.

(** Target 0 on the sample diff, whose only header starts at 10. *)
Lemma mapLineToDiff_below_one_witness :
  mapLineToDiff 0 (render Sample.diff10) = None.
Proof.
  apply mapLineToDiff_below_one.
  - reflexivity.
  - right. repeat constructor; discriminate.
Defined.

(** C5, as stated, fails at target 0: after a header with [newStart] 0 the
    counter is -1, the first added line brings it to 0, and the position of
    that line is returned. *)
Lemma mapLineToDiff_zero_matched :
  (0 < 1)%Q /\ mapLineToDiff 0 ["@@ -0,0 +0,0 @@"; "+x"] = Some 2.
Proof. split; reflexivity. Qed.

End DiffFacts.

(** ** ReviewResponseValidator *)

Module ValidatorFacts.
Import Str Js Validator.

Section WithRuntime.
Context {rt : Runtime}.

(** C2.  For every raw text [parseReviewResponse] returns a result and
    throws nothing; when the decode of the cleaned text throws, the result
    has no issues and the non-empty summary of a parse failure. *)
Theorem parseReviewResponse_never_throws (response filePath : string) :
  exists r,
    parseReviewResponse response filePath = Returned r
    /\ (forall e,
          JSON_parse (cleanResponse response) = Thrown e ->
          reviews r = []
          /\ summary r = JStr "Failed to parse review response"
          /\ truthy (Some (summary r)) = true).
Proof.
  unfold parseReviewResponse.
  destruct (parseReviewBody response filePath) as [r|e0] eqn:Hbody; cbn [tryCatchO].
  - exists r. split; [reflexivity|]. intros e He.
    unfold parseReviewBody in Hbody. rewrite He in Hbody. discriminate.
  - exists parseFailure. split; [reflexivity|]. intros _ _. repeat split.
Qed.

(** On a candidate that is not [null] the callback returns what the rule
    says. *)
Lemma validReview_kept (c : Value) :
  c <> JNull -> validReview c = Returned (kept c).
Proof.
  intros Hc. unfold validReview, kept, field.
  destruct c as [| b | n | s | items | fields]; try reflexivity; [congruence|].
  cbn [getProp bindO].
  destruct (isNumber (lookup "line" fields)); cbn [negb andb]; [|reflexivity].
  destruct (truthy (lookup "message" fields)); reflexivity.
Qed.

Lemma filterO_validReview (cands : list Value) :
  Forall (fun c => c <> JNull) cands ->
  filterO validReview cands = Returned (filter kept cands).
Proof.
  induction 1 as [|c cands Hc _ IH]; [reflexivity|].
  cbn [filterO filter]. rewrite (validReview_kept c Hc), IH. reflexivity.
Qed.

(** One [null] among the candidates makes the callback throw, and the
    answer is then the parse-failure result whatever the other candidates
    are. *)
Lemma filterO_null (cands rest : list Value) :
  Forall (fun c => c <> JNull) cands ->
  filterO validReview (cands ++ JNull :: rest) = Thrown TypeError.
Proof.
  induction 1 as [|c cands Hc _ IH]; [reflexivity|].
  cbn [app filterO]. rewrite (validReview_kept c Hc), IH. reflexivity.
Qed.

(** C3, as amended.  When the decoded answer has an array [reviews] with
    no [null] in it, the issues of the result are exactly the candidates
    whose [line] is a number and whose [message] is truthy, each one as it
    was decoded and in the order of the array. *)
Theorem validator_keeps_numbered_messages
        (response filePath : string) (parsed : Value) (cands : list Value) :
  JSON_parse (cleanResponse response) = Returned parsed ->
  getProp parsed "reviews" = Returned (Some (JArr cands)) ->
  Forall (fun c => c <> JNull) cands ->
  exists s,
    parseReviewResponse response filePath
    = Returned (mkResult (filter kept cands) s).
Proof.
  intros Hparse Hreviews Hcands.
  unfold parseReviewResponse, parseReviewBody.
  rewrite Hparse. cbn [bindO]. rewrite Hreviews. cbn [bindO truthy isArray negb orb itemsOf].
  rewrite (filterO_validReview _ Hcands). cbn [bindO].
  destruct parsed as [| b | n | s | items | fields]; try discriminate.
  cbn [getProp bindO tryCatchO]. eexists. reflexivity.
Qed.

End WithRuntime.

(** the example [parse("not json")] of the specification *)
Lemma parseReviewResponse_never_throws_witness :
  exists r,
    parseReviewResponse (rt := Sample.runtime) "not json" "a.ts" = Returned r
    /\ reviews r = []
    /\ summary r = JStr "Failed to parse review response"
    /\ truthy (Some (summary r)) = true.
Proof.
  destruct (parseReviewResponse_never_throws (rt := Sample.runtime) "not json" "a.ts")
    as [r [Hr Hfail]].
  exists r. split; [exact Hr|]. exact (Hfail SyntaxError eq_refl).
Defined.

(** Four candidates: a good one, one with a string for a line, one with an
    empty message, and a number. *)
Lemma validator_keeps_numbered_messages_witness :
  exists s,
    parseReviewResponse (rt := Sample.runtime)
      (Sample.quoted "{'reviews':[{'line':3,'message':'m'},{'line':'x','message':'m'},{'line':3,'message':''},7]}")
      "a.ts"
    = Returned (mkResult [JObj [("line", JNum 3); ("message", JStr "m")]] s).
Proof.
  pose (cands := [JObj [("line", JNum 3); ("message", JStr "m")];
                  JObj [("line", JStr "x"); ("message", JStr "m")];
                  JObj [("line", JNum 3); ("message", JStr "")];
                  JNum 7]).
  apply (validator_keeps_numbered_messages (rt := Sample.runtime) _ "a.ts"
           (JObj [("reviews", JArr cands)]) cands).
  - reflexivity.
  - reflexivity.
  - repeat constructor; discriminate.
Defined.

(** C3, as stated, fails on a line that is a number and no integer: the
    candidate with line 3.5 is kept. *)
Lemma validator_keeps_fractional_line :
  parseReviewResponse (rt := Sample.runtime)
    (Sample.quoted "{'reviews':[{'line':3.5,'message':'m'}]}") "a.ts"
  = Returned (mkResult [JObj [("line", JNum (7 # 2)); ("message", JStr "m")]]
                (JStr "Reviewed a.ts"))
  /\ isInteger (Some (JNum (7 # 2))) = false.
Proof. split; reflexivity. Qed.

(** The two examples of the specification with a rejected candidate. *)
Example parse_rejects_string_line :
  parseReviewResponse (rt := Sample.runtime)
    (Sample.quoted "{'reviews':[{'line':'x','message':'m'}]}") "a.ts"
  = Returned (mkResult [] (JStr "Reviewed a.ts")).
Proof. reflexivity. Qed.

Example parse_rejects_empty_message :
  parseReviewResponse (rt := Sample.runtime)
    (Sample.quoted "{'reviews':[{'line':3,'message':''}]}") "a.ts"
  = Returned (mkResult [] (JStr "Reviewed a.ts")).
Proof. reflexivity. Qed.

End ValidatorFacts.

(** ** Comment construction and severity tallies *)

Module CommentFacts.
Import Str Js Validator DiffLineMapper Orchestrator.

Lemma append_assoc (a b c : string) :
  ((a ++ b) ++ c)%string = (a ++ b ++ c)%string.
Proof.
  induction a as [|x a IH]; cbn [String.append]; [reflexivity | rewrite IH; reflexivity].
Qed.

Lemma lookup_without_suggestion (k : string) (fields : list (string * Value)) :
  String.eqb k "suggestion" = false ->
  lookup k (filter (fun kv => negb (String.eqb (fst kv) "suggestion")) fields)
  = lookup k fields.
Proof.
  intros Hk. induction fields as [|[k' v] fields IH]; [reflexivity|].
  cbn [filter fst lookup].
  destruct (String.eqb_spec k' "suggestion") as [E|NE]; cbn [negb].
  - subst k'. rewrite Hk. exact IH.
  - cbn [lookup]. rewrite IH. reflexivity.
Qed.

(** Reading any other property does not see the suggestion. *)
Lemma getProp_withoutSuggestion (issue : Value) (k : string) :
  String.eqb k "suggestion" = false ->
  getProp (withoutSuggestion issue) k = getProp issue k.
Proof.
  intros Hk. destruct issue; try reflexivity.
  cbn [withoutSuggestion getProp]. rewrite lookup_without_suggestion by exact Hk.
  reflexivity.
Qed.

Section WithRuntime.
Context {rt : Runtime}.

Lemma commentOfIssue_withoutSuggestion
      (filePath : string) (patchLines : list string) (issue : Value) :
  commentOfIssue filePath patchLines (withoutSuggestion issue)
  = commentOfIssue filePath patchLines issue.
Proof.
  unfold commentOfIssue.
  rewrite !getProp_withoutSuggestion by reflexivity. reflexivity.
Qed.

Lemma commentsLoop_withoutSuggestion
      (filePath : string) (patchLines : list string) (issues : list Value) :
  forall acc,
    commentsLoop filePath patchLines (map withoutSuggestion issues) acc
    = commentsLoop filePath patchLines issues acc.
Proof.
  induction issues as [|issue issues IH]; intros acc; [reflexivity|].
  cbn [map commentsLoop]. rewrite commentOfIssue_withoutSuggestion.
  destruct (commentOfIssue filePath patchLines issue) as [c|e]; cbn [bindO];
    [apply IH | reflexivity].
Qed.

(** C9.  Two lists of issues that are the same once the [suggestion]
    fields are taken away give the same comments, bodies included, and the
    same exception if there is one: no comment depends on a suggestion. *)
Theorem comment_body_ignores_suggestion
        (filePath patchText : string) (issues1 issues2 : list Value) :
  map withoutSuggestion issues1 = map withoutSuggestion issues2 ->
  createReviewComments filePath issues1 patchText
  = createReviewComments filePath issues2 patchText.
Proof.
  intros Hsame. unfold createReviewComments.
  rewrite <- (commentsLoop_withoutSuggestion filePath _ issues1).
  rewrite <- (commentsLoop_withoutSuggestion filePath _ issues2).
  rewrite Hsame. reflexivity.
Qed.

Lemma countWhere_cons_false (pred : Value -> Outcome bool) (issue : Value) (rest : list Value) :
  pred issue = Returned false ->
  countWhere pred (issue :: rest) = countWhere pred rest.
Proof.
  intros Hp. unfold countWhere. cbn [filterO]. rewrite Hp. cbn [bindO].
  destruct (filterO pred rest); reflexivity.
Qed.

(** A comment body starts with the severity marker and a space. *)
Lemma commentBody_head (severityEmoji categoryLabel : string) (message : option Value) :
  severityEmoji <> "" ->
  exists tail,
    commentBody severityEmoji categoryLabel message
    = (severityEmoji ++ " " ++ tail)%string.
Proof.
  intros Hne. unfold commentBody. cbn [filter].
  assert (Hhead : truthy (Some (JStr (severityEmoji ++ " " ++ categoryLabel)%string)) = true).
  { cbn [truthy]. destruct severityEmoji; [congruence | reflexivity]. }
  rewrite Hhead. cbn [truthy String.eqb negb].
  destruct (truthy message); cbn [map joinElement joinWith toString].
  - exists (categoryLabel ++ String LF "" ++ joinElement message)%string.
    rewrite !append_assoc. reflexivity.
  - exists categoryLabel. reflexivity.
Qed.

(** C4, as amended.  An issue without a [severity] field is counted in
    none of the buckets, whatever severities a bucket collects, and when it
    becomes a comment its body starts with the default marker, which is not
    the marker of [info]. *)
Theorem missing_severity_default_marker (issue : Value) :
  getProp issue "severity" = Returned None ->
  (forall names rest,
      countWhere (severityIn names) (issue :: rest)
      = countWhere (severityIn names) rest)
  /\ (forall filePath patchLines c,
        commentOfIssue filePath patchLines issue = Returned (Some c) ->
        exists tail, body c = (markDefault ++ " " ++ tail)%string)
  /\ markDefault <> markInfo.
Proof.
  intros Hsev. split; [|split].
  - intros names rest. apply countWhere_cons_false.
    unfold severityIn. rewrite Hsev. reflexivity.
  - intros filePath patchLines c. unfold commentOfIssue.
    destruct (getProp issue "line") as [issueLine|]; cbn [bindO]; [|discriminate].
    destruct (mapIssueLine issueLine patchLines) as [lineNumber|]; [|discriminate].
    destruct (lineNumber =? 0); [discriminate|].
    rewrite Hsev. cbn [bindO getSeverityEmoji].
    destruct (getProp issue "category") as [category|]; cbn [bindO]; [|discriminate].
    destruct (categoryLabelOf category) as [categoryLabel|]; cbn [bindO]; [|discriminate].
    destruct (getProp issue "message") as [message|]; cbn [bindO]; [|discriminate].
    intros H; inversion H; subst; cbn [body].
    apply commentBody_head. discriminate.
  - discriminate.
Qed.

End WithRuntime.

(** two issues on the added line 11 that differ in their suggestion *)
Lemma comment_body_ignores_suggestion_witness :
  createReviewComments (rt := Sample.runtime) "a.ts"
    [JObj [("line", JNum 11); ("message", JStr "m"); ("suggestion", JStr "x = 1")]]
    Sample.patch10
  = createReviewComments (rt := Sample.runtime) "a.ts"
      [JObj [("line", JNum 11); ("suggestion", JStr "y = 2"); ("message", JStr "m")]]
      Sample.patch10.
Proof.
  apply comment_body_ignores_suggestion. reflexivity.
Defined.

(** adding the issue without severity to a list leaves the tally of
    suggestions and infos where it was *)
Lemma missing_severity_default_marker_witness :
  countWhere (severityIn ["suggestion"; "info"]) [Sample.bare; Sample.bare]
  = countWhere (severityIn ["suggestion"; "info"]) [Sample.bare].
Proof.
  exact (proj1 (missing_severity_default_marker (rt := Sample.runtime) Sample.bare eq_refl)
           ["suggestion"; "info"] [Sample.bare]).
Defined.

(** C4, as stated, fails: the issue [{line: 11, message: "m"}] passes the
    filter and has no severity; the bucket of suggestions and infos counts
    0 for it, and its comment carries the default marker, not the marker
    of [info]. *)
Lemma missing_severity_not_info :
  validReview Sample.bare = Returned true
  /\ getProp Sample.bare "severity" = Returned None
  /\ countWhere (severityIn ["suggestion"; "info"]) [Sample.bare] = Returned 0%nat
  /\ createReviewComments (rt := Sample.runtime) "a.ts" [Sample.bare] Sample.patch10
     = Returned [mkComment "a.ts" 3 (markDefault ++ " " ++ String LF "m")%string "RIGHT"]
  /\ getSeverityEmoji None <> getSeverityEmoji (Some (JStr "info")).
Proof. repeat split. discriminate. Qed.

End CommentFacts.

(** ** The run *)

Module RunFacts.
Import Str Js Validator DiffLineMapper Orchestrator.

Section WithWorld.
Context {rt : Runtime} {World : Type} {co : Collaborators World}.
Variable config : Config.

(** [reviewFile] makes one call, the review request, whatever comes of it. *)
Lemma reviewFile_log (file : PullRequestFile) (t d : option string)
      (st st' : State World) (o : Outcome FileReview) :
  reviewFile config file t d st = (st', o) ->
  log st' = log st ++ [reviewCallOf file].
Proof.
  unfold reviewFile, reviewCode, bindM, tryCatch, perform, lift, ret, throw, reviewCallOf.
  destruct (chatReview (filename file) (patchText file) (prompt config) t d (world st))
    as [w [content|e]].
  - destruct (negb (truthyStr content)); cbn beta iota;
      repeat match goal with
             | |- context [match ?o with Returned _ => _ | Thrown _ => _ end] =>
                 destruct o; cbn beta iota
             end;
      intros H; inversion H; reflexivity.
  - intros H; inversion H; reflexivity.
Qed.


(** One turn of the loop. *)
Lemma reviewLoop_cons (pr : PRDetails) (file : PullRequestFile)
      (rest : list PullRequestFile) (acc : Accumulated) (st : State World) :
  reviewLoop config pr (file :: rest) acc st
  = if skipped file then reviewLoop config pr rest acc st
    else match reviewFile config file (Some (title pr)) (descriptionOf pr) st with
         | (st', Returned result) => reviewLoop config pr rest (record file acc result) st'
         | (st', Thrown _) => reviewLoop config pr rest acc st'
         end.
Proof.
  cbn [reviewLoop]. destruct (skipped file); [reflexivity|].
  unfold bindM, tryCatch, ret.
  destruct (reviewFile config file (Some (title pr)) (descriptionOf pr) st) as [st' [r|e]];
    reflexivity.
Qed.

(** The loop never throws. *)
Lemma reviewLoop_total (pr : PRDetails) (files : list PullRequestFile) :
  forall acc st, exists st' acc',
    reviewLoop config pr files acc st = (st', Returned acc').
Proof.
  induction files as [|file rest IH]; intros acc st.
  - exists st, acc. reflexivity.
  - rewrite reviewLoop_cons. destruct (skipped file); [apply IH|].
    destruct (reviewFile config file (Some (title pr)) (descriptionOf pr) st) as [st' [r|e]];
      apply IH.
Qed.



Lemma reviewCalls_app (a b : list Event) :
  reviewCalls (a ++ b) = reviewCalls a ++ reviewCalls b.
Proof. apply filter_app. Qed.

Lemma fates_length (pr : PRDetails) (files : list PullRequestFile) :
  forall st, List.length (fates config pr files st) = List.length files.
Proof.
  induction files as [|file rest IH]; intros st; [reflexivity|].
  cbn [fates]. destruct (skipped file); cbn [List.length].
  - rewrite IH. reflexivity.
  - destruct (reviewFile config file (Some (title pr)) (descriptionOf pr) st) as [st' [r|e]];
      cbn [List.length]; rewrite IH; reflexivity.
Qed.

(** What the loop leaves behind: one file result for each reviewed file,
    and one review request for each file that is not skipped. *)
Lemma reviewLoop_fates (pr : PRDetails) (files : list PullRequestFile) :
  forall acc st st' acc',
    reviewLoop config pr files acc st = (st', Returned acc') ->
    List.length (snd acc')
    = (List.length (snd acc)
       + List.length (filter isReviewed (fates config pr files st)))%nat
    /\ reviewCalls (log st')
       = reviewCalls (log st)
         ++ map reviewCallOf (filter (fun f => negb (skipped f)) files).
Proof.
  induction files as [|file rest IH]; intros acc st st' acc' Hloop.
  - cbn [reviewLoop] in Hloop. unfold ret in Hloop. inversion Hloop; subst.
    cbn [fates filter map List.length]. rewrite app_nil_r. split; [lia | reflexivity].
  - rewrite reviewLoop_cons in Hloop. cbn [fates filter].
    destruct (skipped file); cbn [negb filter isReviewed].
    + apply IH; exact Hloop.
    + destruct (reviewFile config file (Some (title pr)) (descriptionOf pr) st)
        as [st1 [r|e]] eqn:Hfile;
        pose proof (reviewFile_log _ _ _ _ _ _ Hfile) as Hlog;
        destruct (IH _ _ _ _ Hloop) as [Hlen Hcalls];
        rewrite Hcalls, Hlog, reviewCalls_app; cbn [filter isReviewed map List.length];
        (split; [| unfold reviewCallOf at 2; cbn [reviewCalls filter];
                   rewrite <- app_assoc; reflexivity]).
      * rewrite Hlen. unfold record. cbn [snd]. rewrite length_app. cbn [List.length]. lia.
      * exact Hlen.
Qed.

(** The file results of the loop are those of the reviewed files, in
    order. *)
Lemma reviewLoop_paths (pr : PRDetails) (files : list PullRequestFile) :
  forall acc st st' acc',
    reviewLoop config pr files acc st = (st', Returned acc') ->
    map filePath (snd acc')
    = map filePath (snd acc)
      ++ map filename (reviewedOf files (fates config pr files st)).
Proof.
  unfold reviewedOf.
  induction files as [|file rest IH]; intros acc st st' acc' Hloop.
  - cbn [reviewLoop] in Hloop. unfold ret in Hloop. inversion Hloop; subst.
    cbn. rewrite app_nil_r. reflexivity.
  - rewrite reviewLoop_cons in Hloop. cbn [fates].
    destruct (skipped file); cbn [combine filter snd isReviewed].
    + exact (IH _ _ _ _ Hloop).
    + destruct (reviewFile config file (Some (title pr)) (descriptionOf pr) st)
        as [st1 [r|e]]; cbn [combine filter snd isReviewed map fst].
      * rewrite (IH _ _ _ _ Hloop). unfold record. cbn [snd].
        rewrite map_app. cbn [map filePath]. rewrite <- app_assoc. reflexivity.
      * exact (IH _ _ _ _ Hloop).
Qed.

(** [generateSummary] always returns a text. *)
Lemma generateSummary_returns (fileReviews : list SummaryInput) (systemPrompt : string)
      (st : State World) :
  exists w s,
    generateSummary fileReviews systemPrompt st
    = (mkState w (log st ++ [CallGenerateSummary fileReviews]), Returned s).
Proof.
  unfold generateSummary, tryCatch, bindM, perform, ret.
  destruct (chatSummary fileReviews systemPrompt (world st)) as [w [content|e]];
    eexists; eexists; reflexivity.
Qed.

(** Posting makes no review request. *)
Lemma postReview_calls (allComments : list ReviewComment) (fileResults : list FileResult)
      (overallSummary : string) (c w s : nat) (st st' : State World) (o : Outcome unit) :
  postReview config allComments fileResults overallSummary c w s st = (st', o) ->
  reviewCalls (log st') = reviewCalls (log st).
Proof.
  unfold postReview.
  destruct (0 <? List.length allComments)%nat; destruct (postAsReview config).
  - unfold perform. destruct (createReview _ _ _ (world st)) as [w1 r].
    intros H; inversion H; subst; cbn [log].
    rewrite reviewCalls_app. cbn [reviewCalls filter]. apply app_nil_r.
  - unfold bindM, perform.
    destruct (postReviewComments allComments (world st)) as [w1 [u|e]]; cbn [world log].
    + destruct (postGeneralComment _ w1) as [w2 r].
      intros H; inversion H; subst; cbn [log].
      rewrite !reviewCalls_app. cbn [reviewCalls filter]. rewrite !app_nil_r. reflexivity.
    + intros H; inversion H; subst; cbn [log].
      rewrite reviewCalls_app. cbn [reviewCalls filter]. apply app_nil_r.
  - unfold perform. destruct (createReview _ _ _ (world st)) as [w1 r].
    intros H; inversion H; subst; cbn [log].
    rewrite reviewCalls_app. cbn [reviewCalls filter]. apply app_nil_r.
  - unfold perform. destruct (postGeneralComment _ (world st)) as [w1 r].
    intros H; inversion H; subst; cbn [log].
    rewrite reviewCalls_app. cbn [reviewCalls filter]. apply app_nil_r.
Qed.

(** Once the files are in and there is one at least, a run goes through
    the loop and the summary, neither of which throws; only posting can
    still make it throw. *)
Lemma runReview_after_fetch (st : State World) (w1 w2 : World) (pr : PRDetails)
      (files : list PullRequestFile) :
  getPRDetails (world st) = (w1, Returned pr) ->
  getChangedFiles (excludePatterns config) w1 = (w2, Returned files) ->
  files <> [] ->
  exists stl acc stg overallSummary,
    reviewLoop config pr (filesToReview config files) ([], []) (fetched config st w2)
    = (stl, Returned acc)
    /\ generateSummary
         (map (fun r => (filePath r, fileSummary r, issueCount r)) (snd acc))
         (prompt config) stl
       = (stg, Returned overallSummary)
    /\ log stg = log stl ++ [CallGenerateSummary
                               (map (fun r => (filePath r, fileSummary r, issueCount r))
                                    (snd acc))]
    /\ runReview config st
       = match postReview config (fst acc) (snd acc) overallSummary
                 (sumOf criticalCount (snd acc)) (sumOf warningCount (snd acc))
                 (sumOf suggestionCount (snd acc)) stg with
         | (st', Returned _) => (st', Returned (reportOf files acc overallSummary))
         | (st', Thrown e) => (st', Thrown e)
         end.
Proof.
  intros Hpr Hfiles Hne.
  destruct (reviewLoop_total pr (filesToReview config files) ([], []) (fetched config st w2))
    as [stl [acc Hloop]].
  destruct (generateSummary_returns
              (map (fun r => (filePath r, fileSummary r, issueCount r)) (snd acc))
              (prompt config) stl) as [wg [overallSummary Hsum]].
  exists stl, acc, (mkState wg (log stl ++ [CallGenerateSummary
             (map (fun r => (filePath r, fileSummary r, issueCount r)) (snd acc))])),
    overallSummary.
  split; [exact Hloop|]. split; [exact Hsum|]. split; [reflexivity|].
  unfold runReview.
  unfold bindM at 1. unfold perform at 1. rewrite Hpr.
  unfold bindM at 1. unfold perform at 1. cbn [world log]. rewrite Hfiles.
  destruct files as [|f files']; [congruence|]. cbn [List.length Nat.eqb].
  rewrite <- app_assoc. cbn [app]. fold (fetched config st w2).
  unfold bindM at 1. rewrite Hloop.
  unfold bindM at 1. rewrite Hsum.
  unfold bindM at 1.
  destruct (postReview config (fst acc) (snd acc) overallSummary _ _ _ _)
    as [stp [u|e]]; reflexivity.
Qed.

(** A run that has its files and returns a report took the report from the
    accumulators of the loop, and made no review request after the loop. *)
Lemma runReview_report (st st' : State World) (w1 w2 : World) (pr : PRDetails)
      (files : list PullRequestFile) (report : ReviewSummary) :
  getPRDetails (world st) = (w1, Returned pr) ->
  getChangedFiles (excludePatterns config) w1 = (w2, Returned files) ->
  files <> [] ->
  runReview config st = (st', Returned report) ->
  exists stl acc,
    reviewLoop config pr (filesToReview config files) ([], []) (fetched config st w2)
    = (stl, Returned acc)
    /\ reviewCalls (log st') = reviewCalls (log stl)
    /\ report = reportOf files acc (overall report).
Proof.
  intros Hpr Hfiles Hne Hrun.
  destruct (runReview_after_fetch _ _ _ _ _ Hpr Hfiles Hne)
    as (stl & acc & stg & overallSummary & Hloop & _ & Hlog & Heq).
  rewrite Heq in Hrun.
  destruct (postReview config (fst acc) (snd acc) overallSummary _ _ _ _)
    as [stp [u|e]] eqn:Hpost; [|discriminate].
  inversion Hrun; subst. exists stl, acc. split; [exact Hloop|]. split; [|reflexivity].
  rewrite (postReview_calls _ _ _ _ _ _ _ _ _ Hpost), Hlog.
  rewrite reviewCalls_app. cbn [reviewCalls filter]. apply app_nil_r.
Qed.


(** C7.  When the list of changed files comes back empty, the run returns
    the report with all counts 0 and the summary [No files to review], and
    its log holds the two fetching calls only: no call of the review
    engine, none of the posting interface. *)
Theorem runReview_no_files (st : State World) (w1 w2 : World) (pr : PRDetails) :
  getPRDetails (world st) = (w1, Returned pr) ->
  getChangedFiles (excludePatterns config) w1 = (w2, Returned []) ->
  runReview config st
  = (mkState w2 (log st ++ [CallGetPRDetails;
                            CallGetChangedFiles (excludePatterns config)]),
     Returned (mkSummary 0 0 0 0 0 0 "No files to review")).
Proof.
  intros Hpr Hfiles. unfold runReview, bindM, perform, ret.
  rewrite Hpr. cbn [world log]. rewrite Hfiles. cbn [List.length Nat.eqb].
  rewrite <- app_assoc. reflexivity.
Qed.

(** C8.  With a limit [maxFiles] above 0 and more files than the limit, the
    loop goes through the first [maxFiles] files in the order they were
    fetched and through no other: those are the files that have a fate,
    the review requests of the run are those of the ones among them that
    are not skipped, the file results are those of the ones among them
    whose review completed, [totalFiles] of the report is the number of
    files before the limit and [filesReviewed] is the number of files whose
    review completed. *)
Theorem runReview_limits_files
        (st st' : State World) (w1 w2 : World) (pr : PRDetails)
        (files : list PullRequestFile) (report : ReviewSummary) :
  0 < maxFiles config ->
  maxFiles config < Z.of_nat (List.length files) ->
  getPRDetails (world st) = (w1, Returned pr) ->
  getChangedFiles (excludePatterns config) w1 = (w2, Returned files) ->
  runReview config st = (st', Returned report) ->
  let limit := Z.to_nat (maxFiles config) in
  let reviewing := firstn limit files in
  let fate := fates config pr reviewing (fetched config st w2) in
  filesToReview config files = reviewing
  /\ List.length reviewing = limit
  /\ List.length fate = limit
  /\ reviewCalls (log st')
     = reviewCalls (log st)
       ++ map reviewCallOf (filter (fun f => negb (skipped f)) reviewing)
  /\ (exists stl acc,
         reviewLoop config pr reviewing ([], []) (fetched config st w2)
         = (stl, Returned acc)
         /\ map filePath (snd acc) = map filename (reviewedOf reviewing fate)
         /\ filesReviewed report = List.length (snd acc))
  /\ totalFiles report = List.length files
  /\ filesReviewed report = List.length (filter isReviewed fate).
Proof.
  intros Hpos Hmore Hpr Hfiles Hrun limit reviewing fate.
  assert (Hne : files <> []) by (intros ->; cbn in Hmore; lia).
  assert (Hlimit : filesToReview config files = reviewing).
  { unfold filesToReview. apply Z.ltb_lt in Hpos. rewrite Hpos. reflexivity. }
  assert (Hlen : List.length reviewing = limit).
  { unfold reviewing. rewrite length_firstn. lia. }
  destruct (runReview_report _ _ _ _ _ _ _ Hpr Hfiles Hne Hrun)
    as (stl & acc & Hloop & Hcalls & Hreport).
  rewrite Hlimit in Hloop.
  destruct (reviewLoop_fates _ _ _ _ _ _ Hloop) as [Hcount Hreq].
  pose proof (reviewLoop_paths _ _ _ _ _ _ Hloop) as Hpaths.
  split; [exact Hlimit|]. split; [exact Hlen|].
  split; [unfold fate; rewrite fates_length; exact Hlen|].
  split; [|split; [|split]].
  - rewrite Hcalls, Hreq. unfold fetched. cbn [log].
    rewrite reviewCalls_app. cbn [reviewCalls filter]. rewrite app_nil_r. reflexivity.
  - exists stl, acc. split; [exact Hloop|]. split; [exact Hpaths|].
    rewrite Hreport. reflexivity.
  - rewrite Hreport. reflexivity.
  - rewrite Hreport. cbn [reportOf filesReviewed]. rewrite Hcount. reflexivity.
Qed.

(** The tallies of a file are taken over all the issues the parser let
    through; the comments are those of the issues that map into the diff. *)
Lemma reviewFile_tallies (file : PullRequestFile) (t d : option string)
      (st st' : State World) (r : FileReview) :
  reviewFile config file t d st = (st', Returned r) ->
  exists result,
    reviewCode (filename file) (patchText file) (prompt config) t d st
    = (st', Returned result)
    /\ createReviewComments (filename file) (reviews result) (patchText file)
       = Returned (comments r)
    /\ countWhere (severityIn ["critical"]) (reviews result) = Returned (criticals r)
    /\ countWhere (severityIn ["warning"]) (reviews result) = Returned (warningsOfFile r)
    /\ countWhere (severityIn ["suggestion"; "info"]) (reviews result)
       = Returned (suggestionsOfFile r)
    /\ forall acc,
         snd (record file acc r)
         = snd acc ++ [mkFileResult (filename file) (reviewSummary r)
                         (List.length (comments r)) (criticals r)
                         (warningsOfFile r) (suggestionsOfFile r)].
Proof.
  unfold reviewFile. unfold bindM at 1.
  destruct (reviewCode _ _ _ _ _ st) as [st1 [result|e]]; [|discriminate].
  unfold bindM, lift, ret.
  destruct (createReviewComments _ _ _) as [cs|] eqn:Hcs; [|discriminate].
  destruct (countWhere (severityIn ["critical"]) _) as [c|] eqn:Hc; [|discriminate].
  destruct (countWhere (severityIn ["warning"]) _) as [w|] eqn:Hw; [|discriminate].
  destruct (countWhere (severityIn ["suggestion"; "info"]) _) as [s|] eqn:Hs; [|discriminate].
  intros H; inversion H; subst. exists result.
  cbn [comments criticals warningsOfFile suggestionsOfFile].
  repeat (split; [first [reflexivity | assumption]|]). intros acc; reflexivity.
Qed.

End WithWorld.

(** C10.  The tallies of a reviewed file count the issues the parser
    returned, by severity, whether or not their lines map into the diff,
    while the comments, and with them [issueCount] of the file result, come
    from the issues that map; and there is a run whose report has more
    critical issues, warnings and suggestions together than comments. *)
Theorem tallies_count_validated_issues :
  (forall (rt : Runtime) (World : Type) (co : Collaborators World)
          (config : Config) (file : PullRequestFile) (t d : option string)
          (st st' : State World) (r : FileReview),
      reviewFile config file t d st = (st', Returned r) ->
      exists result,
        reviewCode (filename file) (patchText file) (prompt config) t d st
        = (st', Returned result)
        /\ createReviewComments (filename file) (reviews result) (patchText file)
           = Returned (comments r)
        /\ countWhere (severityIn ["critical"]) (reviews result) = Returned (criticals r)
        /\ countWhere (severityIn ["warning"]) (reviews result)
           = Returned (warningsOfFile r)
        /\ countWhere (severityIn ["suggestion"; "info"]) (reviews result)
           = Returned (suggestionsOfFile r)
        /\ forall acc,
             snd (record file acc r)
             = snd acc ++ [mkFileResult (filename file) (reviewSummary r)
                             (List.length (comments r)) (criticals r)
                             (warningsOfFile r) (suggestionsOfFile r)])
  /\ (exists (rt : Runtime) (World : Type) (co : Collaborators World)
             (config : Config) (st st' : State World) (report : ReviewSummary),
         runReview config st = (st', Returned report)
         /\ (totalComments report
             < criticalIssues report + warnings report + suggestions report)%nat).
Proof.
  split.
  - intros rt World co config file t d st st' r. apply reviewFile_tallies.
  - exists Sample.runtime, nat, (Sample.collaborators [Sample.changed "a.ts"]),
      (Sample.config 0), Sample.start.
    eexists. eexists. split; [vm_compute; reflexivity|]. vm_compute. lia.
Qed.

(** The review of the sample file: two issues come back, the one on the
    context line 10 gives no comment and is counted as a warning. *)
Lemma tallies_count_validated_issues_witness :
  exists result,
    reviewCode (rt := Sample.runtime) (co := Sample.collaborators [])
      "a.ts" Sample.patch10 "Review this" None None Sample.start
    = (mkState 1%nat [reviewCallOf (Sample.changed "a.ts")], Returned result)
    /\ List.length (reviews result) = 2%nat
    /\ createReviewComments (rt := Sample.runtime) "a.ts" (reviews result) Sample.patch10
       = Returned [mkComment "a.ts" 3
                     (markCritical ++ " **SECURITY**" ++ String LF "m")%string "RIGHT"]
    /\ countWhere (severityIn ["warning"]) (reviews result) = Returned 1%nat.
Proof.
  destruct (proj1 tallies_count_validated_issues
              Sample.runtime nat (Sample.collaborators []) (Sample.config 0)
              (Sample.changed "a.ts") None None Sample.start
              (mkState 1%nat [reviewCallOf (Sample.changed "a.ts")])
              (mkFileReview
                 [mkComment "a.ts" 3
                    (markCritical ++ " **SECURITY**" ++ String LF "m")%string "RIGHT"]
                 (JStr "ok") 1 1 0)
              eq_refl)
    as (result & Hcode & Hcomments & _ & Hwarn & _).
  exists result. repeat split; try assumption.
  vm_compute in Hcode. inversion Hcode. reflexivity.
Defined.


(** no changed file at all *)
Lemma runReview_no_files_witness :
  runReview (rt := Sample.runtime) (co := Sample.collaborators [])
    (Sample.config 2) Sample.start
  = (mkState 2%nat [CallGetPRDetails; CallGetChangedFiles []],
     Returned (mkSummary 0 0 0 0 0 0 "No files to review")).
Proof.
  exact (runReview_no_files (rt := Sample.runtime) (co := Sample.collaborators [])
           (Sample.config 2) Sample.start 1%nat 2%nat Sample.samplePR eq_refl eq_refl).
Defined.

(** the example of the specification: five changed files and a limit of 2 *)
Lemma runReview_limits_files_witness :
  let co := Sample.collaborators Sample.fiveFiles in
  let run := runReview (rt := Sample.runtime) (co := co) (Sample.config 2) Sample.start in
  exists report,
    snd run = Returned report
    /\ totalFiles report = 5%nat
    /\ filesReviewed report = 2%nat
    /\ reviewCalls (log (fst run))
       = [reviewCallOf (Sample.changed "a.ts"); reviewCallOf (Sample.changed "b.ts")].
Proof.
  intros co run.
  pose (report := match snd run with Returned r => r | Thrown _ => emptyReport end).
  destruct (runReview_limits_files (rt := Sample.runtime) (co := co)
              (Sample.config 2) Sample.start (fst run) 1%nat 2%nat Sample.samplePR
              Sample.fiveFiles report eq_refl eq_refl eq_refl eq_refl eq_refl)
    as (_ & _ & _ & Hcalls & _ & Htotal & Hreviewed).
  exists report. split; [reflexivity|]. split; [exact Htotal|].
  split; [rewrite Hreviewed; reflexivity | rewrite Hcalls; reflexivity].
Defined.

End RunFacts.

(* ================================================================== *)
(** * Further properties of the code                                   *)
(* ================================================================== *)

Module MoreDiffFacts.
Import Str DiffLineMapper HeaderText Orchestrator.

(** What the loop returns is the index of an added line that is no header;
    when the loop starts outside a hunk, a header comes before it. *)
Lemma mapLoop_found (t : Q) (lines : list string) :
  forall i cur inHunk p,
    mapLoop t lines i cur inHunk = Some p ->
    exists k line,
      p = i + Z.of_nat k + 1
      /\ nth_error lines k = Some line
      /\ startsWith "+" line = true
      /\ hunkMatch line = None
      /\ (inHunk = false ->
          exists j hdr,
            (j < k)%nat /\ nth_error lines j = Some hdr /\ hunkMatch hdr <> None).
Proof.
  induction lines as [|l lines IH]; intros i cur inHunk p; [discriminate|].
  assert (Hnext : forall c b,
             (inHunk = false -> b = false \/ hunkMatch l <> None) ->
             mapLoop t lines (i + 1) c b = Some p ->
             exists k line,
               p = i + Z.of_nat k + 1
               /\ nth_error (l :: lines) k = Some line
               /\ startsWith "+" line = true
               /\ hunkMatch line = None
               /\ (inHunk = false ->
                   exists j hdr,
                     (j < k)%nat /\ nth_error (l :: lines) j = Some hdr
                     /\ hunkMatch hdr <> None)).
  { intros c b Hb H.
    destruct (IH _ _ _ _ H) as (k & line & Hp & Hnth & Hplus & Hno & Hhdr).
    exists (S k), line. repeat split; try assumption; [lia|].
    intros Hout. destruct (Hb Hout) as [Hbf | Hl].
    - destruct (Hhdr Hbf) as (j & hdr & Hj & Hjn & Hh).
      exists (S j), hdr. repeat split; [lia | exact Hjn | exact Hh].
    - exists 0%nat, l. repeat split; [lia | exact Hl]. }
  cbn [mapLoop]. destruct (hunkMatch l) as [n|] eqn:Hl.
  - apply Hnext. intros _. right. discriminate.
  - destruct inHunk; cbn [negb].
    + destruct (startsWith "+" l) eqn:Hplus.
      * destruct (Qeq_bool (inject_Z (cur + 1)) t).
        -- intros H; inversion H; subst. exists 0%nat, l.
           repeat split; try assumption; [lia | discriminate].
        -- apply Hnext. discriminate.
      * destruct (negb (startsWith "-" l)); apply Hnext; discriminate.
    + apply Hnext. intros _. left. reflexivity.
Qed.

(** X1.  For every target and every list of diff lines, a position that
    [mapLineToDiff] returns lies between 1 and the number of lines, and the
    line at that position starts with [+], does not read as a hunk header
    and comes after a line that does: no removed line, no context line, no
    header and no line before the first header is ever returned. *)
Theorem mapLineToDiff_position (t : Q) (patchLines : list string) (p : Z) :
  mapLineToDiff t patchLines = Some p ->
  1 <= p <= Z.of_nat (List.length patchLines)
  /\ exists line,
       nth_error patchLines (Z.to_nat (p - 1)) = Some line
       /\ tagOf line = Added
       /\ hunkMatch line = None
       /\ exists j hdr,
            (j < Z.to_nat (p - 1))%nat
            /\ nth_error patchLines j = Some hdr
            /\ hunkMatch hdr <> None.
Proof.
  intros H. destruct (mapLoop_found _ _ _ _ _ _ H)
    as (k & line & Hp & Hnth & Hplus & Hno & Hhdr).
  assert (Hk : Z.to_nat (p - 1) = k) by lia.
  split.
  - assert (k < List.length patchLines)%nat.
    { apply nth_error_Some. rewrite Hnth. discriminate. }
    lia.
  - exists line. rewrite Hk. repeat split; try assumption.
    + unfold tagOf. rewrite Hplus. reflexivity.
    + exact (Hhdr eq_refl).
Qed.

Lemma mapLineToDiff_position_witness :
  1 <= 5 <= Z.of_nat (List.length (render Sample.diff10))
  /\ exists line,
       nth_error (render Sample.diff10) (Z.to_nat (5 - 1)) = Some line
       /\ tagOf line = Added
       /\ hunkMatch line = None
       /\ exists j hdr,
            (j < Z.to_nat (5 - 1))%nat
            /\ nth_error (render Sample.diff10) j = Some hdr
            /\ hunkMatch hdr <> None.
Proof.
  exact (mapLineToDiff_position (inject_Z 12) (render Sample.diff10) 5 eq_refl).
Defined.




(** X3.  A patch in which no line reads as a hunk header maps no target:
    the lines before the first header are passed over.  The empty patch is
    such a patch. *)
Theorem mapLineToDiff_no_header (t : Q) (patchLines : list string) :
  forallb noHeader patchLines = true ->
  mapLineToDiff t patchLines = None.
Proof.
  intros Hno. unfold mapLineToDiff.
  rewrite <- (app_nil_r patchLines).
  rewrite (DiffFacts.mapLoop_outside t patchLines [] Hno). reflexivity.
Qed.

Lemma mapLineToDiff_no_header_witness :
  mapLineToDiff 1 ["diff --git a/x b/x"; "+a"; " b"] = None.
Proof. apply mapLineToDiff_no_header. reflexivity. Defined.

Lemma mapLoop_prefix (t : Q) (lines more : list string) :
  forall i cur inHunk p,
    mapLoop t lines i cur inHunk = Some p ->
    mapLoop t (lines ++ more) i cur inHunk = Some p.
Proof.
  induction lines as [|l lines IH]; intros i cur inHunk p; [discriminate|].
  cbn [app mapLoop]. destruct (hunkMatch l); [apply IH|].
  destruct (negb inHunk); [apply IH|].
  destruct (startsWith "+" l).
  - destruct (Qeq_bool (inject_Z (cur + 1)) t); [trivial | apply IH].
  - destruct (negb (startsWith "-" l)); apply IH.
Qed.

(** X4.  The scan stops at the first match: a position found in a patch is
    the position found in every patch that continues it, whatever lines
    and hunks follow. *)
Theorem mapLineToDiff_prefix (t : Q) (patchLines more : list string) (p : Z) :
  mapLineToDiff t patchLines = Some p ->
  mapLineToDiff t (patchLines ++ more) = Some p.
Proof. apply mapLoop_prefix. Qed.

Lemma mapLineToDiff_prefix_witness :
  mapLineToDiff 11 (render Sample.diff10 ++ ["@@ -20,2 +11,2 @@"; "+late"]) = Some 3.
Proof. apply mapLineToDiff_prefix. reflexivity. Defined.

End MoreDiffFacts.

Module HeaderFacts.
Import Str Text DiffLineMapper HeaderText Orchestrator.









End HeaderFacts.

Module MoreValidatorFacts.
Import Str Text Js Validator.

Section WithRuntime.
Context {rt : Runtime}.

(** When the filter returns, there was no [null] to throw on and the
    result is what the rule keeps. *)
Lemma filterO_validReview_returned (cands : list Value) :
  forall kept',
    filterO validReview cands = Returned kept' ->
    kept' = filter kept cands.
Proof.
  induction cands as [|c cands IH]; intros kept' H.
  - inversion H. reflexivity.
  - cbn [filterO filter] in H |- *.
    assert (Hc : c <> JNull) by (intros ->; discriminate H).
    rewrite (ValidatorFacts.validReview_kept c Hc) in H. cbn [bindO] in H.
    destruct (filterO validReview cands) as [others|]; [|discriminate H].
    cbn [bindO] in H. rewrite <- (IH others eq_refl).
    inversion H. reflexivity.
Qed.

(** The three ways [parseReviewResponse] ends. *)
Lemma parseReviewResponse_cases (response filePath : string) (r : ReviewResult) :
  parseReviewResponse response filePath = Returned r ->
  r = parseFailure
  \/ (exists parsed,
         JSON_parse (cleanResponse response) = Returned parsed
         /\ r = mkResult [] (orElse (field parsed "summary") (JStr "Review completed")))
  \/ (exists parsed cands,
         JSON_parse (cleanResponse response) = Returned parsed
         /\ field parsed "reviews" = Some (JArr cands)
         /\ r = mkResult (filter kept cands)
                  (orElse (field parsed "summary") (JStr ("Reviewed " ++ filePath)%string))).
Proof.
  unfold parseReviewResponse, parseReviewBody.
  destruct (JSON_parse (cleanResponse response)) as [parsed|e]; cbn [bindO tryCatchO];
    [|intros H; inversion H; left; reflexivity].
  destruct parsed as [| b | n | s | items | fields];
    cbn [getProp bindO tryCatchO truthy isArray negb orb];
    try (intros H; inversion H; subst; first
           [ left; reflexivity
           | right; left; eexists; split; reflexivity ]).
  destruct (lookup "reviews" fields) as [v|] eqn:Hrev; cbn [truthy isArray negb orb];
    [|intros H; inversion H; right; left; eexists; split; reflexivity].
  destruct v as [| b | n | s | cands | fs];
    cbn [truthy isArray negb orb itemsOf bindO tryCatchO];
    try (rewrite ?orb_true_r; cbn [bindO tryCatchO];
         intros H; inversion H; right; left; eexists; split; reflexivity).
  destruct (filterO validReview cands) as [kept'|e] eqn:Hf; cbn [bindO tryCatchO].
  - intros H; inversion H; subst. right. right.
    exists (JObj fields), cands. repeat split; [exact Hrev|].
    rewrite (filterO_validReview_returned _ _ Hf). reflexivity.
  - intros H; inversion H. left. reflexivity.
Qed.

(** X6.  Whatever the text of the engine, every issue of the result of
    [parseReviewResponse] has a number for its [line] and a truthy
    [message]. *)
Theorem parsed_issues_are_valid (response filePath : string) (r : ReviewResult) :
  parseReviewResponse response filePath = Returned r ->
  Forall (fun issue => isNumber (field issue "line") = true
                       /\ truthy (field issue "message") = true)
         (reviews r).
Proof.
  intros H. destruct (parseReviewResponse_cases _ _ _ H)
    as [-> | [(parsed & _ & ->) | (parsed & cands & _ & _ & ->)]];
    cbn [reviews parseFailure]; try constructor.
  apply Forall_forall. intros issue Hin. apply filter_In in Hin as [_ Hk].
  unfold kept in Hk. apply andb_true_iff in Hk. exact Hk.
Qed.

Lemma orElse_truthy (v : option Value) (d : Value) :
  truthy (Some d) = true -> truthy (Some (orElse v d)) = true.
Proof.
  intros Hd. unfold orElse. destruct v as [x|]; [|exact Hd].
  destruct (truthy (Some x)) eqn:Hx; assumption.
Qed.

(** X7.  Whatever the text of the engine, the summary of the result is
    truthy: it is never missing, never [null] and never the empty text. *)
Theorem parsed_summary_is_truthy (response filePath : string) (r : ReviewResult) :
  parseReviewResponse response filePath = Returned r ->
  truthy (Some (summary r)) = true.
Proof.
  intros H. destruct (parseReviewResponse_cases _ _ _ H)
    as [-> | [(parsed & _ & ->) | (parsed & cands & _ & _ & ->)]];
    cbn [summary parseFailure]; try reflexivity; apply orElse_truthy; reflexivity.
Qed.

(** X8.  A decoded answer that is [null] gives the parse-failure result
    although its text was valid JSON; any other decoded answer without an
    array under [reviews] gives no issues and its own [summary] where that
    is truthy, the text [Review completed] otherwise. *)
Theorem parse_without_reviews (response filePath : string) (parsed : Value) :
  JSON_parse (cleanResponse response) = Returned parsed ->
  (parsed = JNull -> parseReviewResponse response filePath = Returned parseFailure)
  /\ (parsed <> JNull ->
      isArray (field parsed "reviews") = false ->
      parseReviewResponse response filePath
      = Returned (mkResult [] (orElse (field parsed "summary")
                                      (JStr "Review completed")))).
Proof.
  intros Hparse. unfold parseReviewResponse, parseReviewBody. rewrite Hparse.
  split.
  - intros ->. reflexivity.
  - intros Hnn Harr.
    destruct parsed as [| b | n | s | items | fields]; try reflexivity; [congruence|].
    cbn [field] in Harr. cbn [bindO getProp]. rewrite Harr.
    cbn [negb]. rewrite orb_true_r. reflexivity.
Qed.

End WithRuntime.

Lemma parsed_issues_are_valid_witness :
  Forall (fun issue => isNumber (field issue "line") = true
                       /\ truthy (field issue "message") = true)
         [JObj [("line", JNum 11); ("severity", JStr "critical");
                ("category", JStr "security"); ("message", JStr "m");
                ("suggestion", JStr "s")];
          JObj [("line", JNum 10); ("severity", JStr "warning");
                ("message", JStr "w")]].
Proof.
  exact (parsed_issues_are_valid (rt := Sample.runtime) Sample.reply "a.ts"
           (mkResult _ (JStr "ok")) eq_refl).
Defined.

Lemma parsed_summary_is_truthy_witness :
  truthy (Some (JStr "Reviewed a.ts")) = true.
Proof.
  exact (parsed_summary_is_truthy (rt := Sample.runtime)
           (Sample.quoted "{'reviews':[],'summary':''}") "a.ts"
           (mkResult [] (JStr "Reviewed a.ts")) eq_refl).
Defined.

Lemma parse_without_reviews_witness :
  parseReviewResponse (rt := Sample.runtime) "null" "a.ts" = Returned parseFailure
  /\ parseReviewResponse (rt := Sample.runtime)
       (Sample.quoted "{'reviews':'none','summary':'fine'}") "a.ts"
     = Returned (mkResult [] (JStr "fine")).
Proof.
  split.
  - exact (proj1 (parse_without_reviews (rt := Sample.runtime) "null" "a.ts" JNull eq_refl)
             eq_refl).
  - refine (proj2 (parse_without_reviews (rt := Sample.runtime)
                     (Sample.quoted "{'reviews':'none','summary':'fine'}") "a.ts"
                     (JObj [("reviews", JStr "none"); ("summary", JStr "fine")]) eq_refl)
              _ eq_refl).
    discriminate.
Defined.

(** *** The fences around the answer *)

Lemma fenceLength_plain (c : ascii) (r : string) :
  Ascii.eqb c BACKTICK = false ->
  startsWith (String BACKTICK "") r = false ->
  fenceLength (String c r) = 0%nat.
Proof.
  intros Hc Hr. unfold fenceLength.
  assert (H1 : stripPrefix "```json" (String c r) = None).
  { cbn [stripPrefix]. rewrite Ascii.eqb_sym. change "`"%char with BACKTICK.
    rewrite Hc. reflexivity. }
  rewrite H1.
  assert (H2 : startsWith "```" (String c r) = false).
  { cbn [startsWith]. rewrite Ascii.eqb_sym. change "`"%char with BACKTICK.
    rewrite Hc. reflexivity. }
  rewrite H2.
  assert (H3 : startsWith (String LF "```") (String c r) = false).
  { cbn [startsWith]. destruct r as [|x r']; [apply andb_false_r|].
    cbn [startsWith] in Hr |- *. rewrite andb_true_r in Hr.
    change "`"%char with BACKTICK. rewrite Hr. apply andb_false_r. }
  rewrite H3. reflexivity.
Qed.

Lemma removeFences_before (p tail : string) :
  hasChar BACKTICK p = false ->
  startsWith (String BACKTICK "") tail = false ->
  removeFences 0 (p ++ tail)%string = (p ++ removeFences 0 tail)%string.
Proof.
  intros Hp Htail. induction p as [|c p IH]; [reflexivity|].
  cbn [hasChar] in Hp. apply orb_false_iff in Hp as [Hc Hp].
  cbn [String.append removeFences].
  rewrite fenceLength_plain.
  - rewrite (IH Hp). reflexivity.
  - exact Hc.
  - destruct p as [|x p']; [exact Htail|].
    cbn [hasChar] in Hp. apply orb_false_iff in Hp as [Hx _].
    cbn [String.append startsWith]. rewrite Ascii.eqb_sym.
    change "`"%char with BACKTICK. rewrite Hx. reflexivity.
Qed.

Lemma append_empty (s : string) : (s ++ "")%string = s.
Proof. induction s as [|c s IH]; [reflexivity | cbn; rewrite IH; reflexivity]. Qed.

(** X9.  A payload without a backtick comes out of the cleaning as it is,
    whether it stands alone or between the fence lines of a JSON block;
    what is decoded is then the trimmed payload. *)
Theorem removeFences_payload (payload : string) :
  hasChar BACKTICK payload = false ->
  removeFences 0 payload = payload
  /\ removeFences 0 ("```json" ++ String LF payload ++ String LF "```")%string = payload.
Proof.
  intros Hp. split.
  - rewrite <- (append_empty payload) at 1.
    rewrite (removeFences_before payload "" Hp eq_refl). apply append_empty.
  - change (removeFences 0 ("```json" ++ String LF payload ++ String LF "```")%string)
      with (removeFences 0 (payload ++ String LF "```")%string).
    rewrite (removeFences_before payload (String LF "```") Hp eq_refl).
    cbn [removeFences]. apply append_empty.
Qed.

Lemma removeFences_payload_witness :
  removeFences 0 "{}" = "{}"
  /\ removeFences 0 ("```json" ++ String LF "{}" ++ String LF "```")%string = "{}".
Proof. apply removeFences_payload. reflexivity. Defined.

End MoreValidatorFacts.

Module ClientFacts.
Import Str Text Js Validator Orchestrator Client.

Section WithWorld.
Context {rt : Runtime} {World : Type} {co : Collaborators World}.



End WithWorld.


(** *** The base URL *)

Lemma endsWith_app (p a : string) : endsWith p (a ++ p)%string = true.
Proof.
  induction a as [|c a IH].
  - destruct p; cbn [String.append endsWith]; rewrite String.eqb_refl; reflexivity.
  - cbn [String.append endsWith]. rewrite IH. apply orb_true_r.
Qed.

Lemma dropFinalSlash_plain (u : string) :
  endsWith "/" u = false -> dropFinalSlash u = u.
Proof.
  induction u as [|c u IH]; [reflexivity|].
  cbn [endsWith dropFinalSlash]. intros H. apply orb_false_iff in H as [Heq Hu].
  destruct (Ascii.eqb_spec c "/") as [->|Hc]; cbn [andb].
  - destruct (String.eqb_spec u "") as [->|Hne]; [discriminate Heq|].
    rewrite (IH Hu). reflexivity.
  - rewrite (IH Hu). reflexivity.
Qed.

Lemma dropFinalSlash_slash (u : string) : dropFinalSlash (u ++ "/")%string = u.
Proof.
  induction u as [|c u IH]; [reflexivity|].
  cbn [String.append dropFinalSlash]. rewrite IH.
  destruct (u ++ "/")%string eqn:E; [destruct u; discriminate|].
  rewrite andb_false_r. reflexivity.
Qed.

Lemma endsWith_v1_slash (u : string) : endsWith "/v1" (u ++ "/")%string = false.
Proof.
  induction u as [|c u IH]; [reflexivity|].
  cbn [String.append endsWith]. rewrite IH, orb_false_r.
  destruct (String.eqb_spec (String c (u ++ "/")) "/v1") as [E|_]; [|reflexivity].
  exfalso. inversion E as [[Hc Hu]].
  destruct u as [|x [|y [|z u']]]; cbn [String.append] in Hu; discriminate Hu.
Qed.

(** X12.  The base URL the constructor uses always ends with [/v1];
    normalising it again changes nothing; and a URL that ends with neither
    [/v1] nor a slash gives the same base URL with and without a slash
    after it. *)
Theorem normalizeBaseURL_v1 (baseURL : string) :
  endsWith "/v1" (normalizeBaseURL baseURL) = true
  /\ normalizeBaseURL (normalizeBaseURL baseURL) = normalizeBaseURL baseURL
  /\ (endsWith "/v1" baseURL = false ->
      endsWith "/" baseURL = false ->
      normalizeBaseURL (baseURL ++ "/")%string = (baseURL ++ "/v1")%string
      /\ normalizeBaseURL baseURL = (baseURL ++ "/v1")%string).
Proof.
  assert (Hends : endsWith "/v1" (normalizeBaseURL baseURL) = true).
  { unfold normalizeBaseURL. destruct (endsWith "/v1" baseURL) eqn:E; [exact E|].
    apply endsWith_app. }
  split; [exact Hends|]. split.
  - unfold normalizeBaseURL at 1. rewrite Hends. reflexivity.
  - intros Hv1 Hslash. unfold normalizeBaseURL.
    rewrite endsWith_v1_slash, dropFinalSlash_slash, Hv1.
    rewrite (dropFinalSlash_plain _ Hslash). split; reflexivity.
Qed.

Lemma normalizeBaseURL_v1_witness :
  normalizeBaseURL "http://localhost:11434/" = "http://localhost:11434/v1"
  /\ normalizeBaseURL "http://localhost:11434" = "http://localhost:11434/v1".
Proof.
  exact (proj2 (proj2 (normalizeBaseURL_v1 "http://localhost:11434")) eq_refl eq_refl).
Defined.

End ClientFacts.

Module PromptFacts.
Import Str Text Js Validator Orchestrator Client.

Lemma split_lines_cons (s : string) : exists l ls, split_lines s = l :: ls.
Proof.
  induction s as [|c s (l & ls & IH)]; cbn [split_lines]; [eauto|].
  destruct (Ascii.eqb c LF); [eauto|]. rewrite IH. eauto.
Qed.

(** Joining the lines of a text gives the text back. *)
Lemma join_split (s : string) : join_lines (split_lines s) = s.
Proof.
  induction s as [|c s IH]; [reflexivity|]. cbn [split_lines].
  destruct (split_lines_cons s) as (l & ls & Hs). rewrite Hs in IH |- *.
  destruct (Ascii.eqb_spec c LF) as [->|Hc].
  - cbn [join_lines String.append]. cbn [join_lines] in IH. rewrite IH. reflexivity.
  - cbn [join_lines] in IH |- *. destruct ls; cbn [String.append]; rewrite IH; reflexivity.
Qed.

Lemma split_lines_noLF (s : string) :
  Forall (fun l => hasChar LF l = false) (split_lines s).
Proof.
  induction s as [|c s IH]; cbn [split_lines]; [repeat constructor|].
  destruct (Ascii.eqb c LF) eqn:Hc; [constructor; [reflexivity | exact IH]|].
  destruct (split_lines_cons s) as (l & ls & Hs). rewrite Hs in IH |- *.
  inversion IH; subst. constructor; [|assumption].
  cbn [hasChar]. rewrite Hc. assumption.
Qed.

Lemma split_lines_line (a : string) :
  hasChar LF a = false -> split_lines a = [a].
Proof.
  induction a as [|c a IH]; [reflexivity|]. cbn [hasChar split_lines].
  intros H. apply orb_false_iff in H as [Hc Ha]. rewrite Hc, (IH Ha). reflexivity.
Qed.

Lemma split_lines_first (a rest : string) :
  hasChar LF a = false ->
  split_lines (a ++ String LF rest)%string = a :: split_lines rest.
Proof.
  induction a as [|c a IH]; cbn [String.append hasChar split_lines].
  - intros _. rewrite Ascii.eqb_refl. reflexivity.
  - intros H. apply orb_false_iff in H as [Hc Ha]. rewrite Hc, (IH Ha). reflexivity.
Qed.

(** Splitting the join of lines without line feeds gives the lines back. *)
Lemma split_join (l : string) (ls : list string) :
  Forall (fun x => hasChar LF x = false) (l :: ls) ->
  split_lines (join_lines (l :: ls)) = l :: ls.
Proof.
  revert l. induction ls as [|l' ls IH]; intros l H; inversion H; subst.
  - apply split_lines_line. assumption.
  - change (join_lines (l :: l' :: ls)) with (l ++ String LF (join_lines (l' :: ls)))%string.
    rewrite split_lines_first by assumption. rewrite IH by assumption. reflexivity.
Qed.

Lemma hasChar_app (c : ascii) (a b : string) :
  hasChar c (a ++ b)%string = hasChar c a || hasChar c b.
Proof.
  induction a as [|x a IH]; [reflexivity|].
  cbn [String.append hasChar]. rewrite IH. apply orb_assoc.
Qed.

Lemma dropChars_app (a b : string) : dropChars (String.length a) (a ++ b)%string = b.
Proof. induction a as [|x a IH]; [reflexivity | exact IH]. Qed.

Lemma string_of_uint_text (d : Decimal.uint) :
  String.length (NilEmpty.string_of_uint d) = Decimal.nb_digits d
  /\ hasChar LF (NilEmpty.string_of_uint d) = false.
Proof.
  induction d as [| d [IHl IHc] | d [IHl IHc] | d [IHl IHc] | d [IHl IHc] | d [IHl IHc]
                  | d [IHl IHc] | d [IHl IHc] | d [IHl IHc] | d [IHl IHc] | d [IHl IHc]];
    cbn [NilEmpty.string_of_uint String.length Decimal.nb_digits hasChar];
    [split; reflexivity | ..]; (split; [rewrite IHl; reflexivity | exact IHc]).
Qed.

(** The digits after an accumulated value shift it by their number. *)
Lemma of_uint_acc_lower (d : Decimal.uint) :
  forall acc, (acc * 10 ^ Decimal.nb_digits d <= Nat.of_uint_acc d acc)%nat.
Proof.
  induction d; intros acc;
    cbn [Nat.of_uint_acc Decimal.nb_digits]; [rewrite Nat.pow_0_r; lia | ..];
    rewrite Nat.tail_mul_spec, Nat.pow_succ_r';
    (eapply Nat.le_trans; [|apply IHd]);
    (apply Nat.le_trans with (10 * acc * 10 ^ Decimal.nb_digits d)%nat;
     [ generalize (10 ^ Decimal.nb_digits d)%nat; intros; lia
     | apply Nat.mul_le_mono_r; lia ]).
Qed.

(** A number below 10000 is written with four digits at most. *)
Lemma natToString_short (n : nat) :
  Z.of_nat n < 10000 ->
  (String.length (natToString n) <= 4)%nat
  /\ hasChar LF (natToString n) = false.
Proof.
  intros Hn. unfold natToString.
  pose proof (Unsigned.of_to n) as Hof.
  pose proof (Unsigned.to_of (Nat.to_uint n)) as Hnorm. rewrite Hof in Hnorm.
  destruct (string_of_uint_text (Nat.to_uint n)) as [Hlen Hlf].
  unfold Nat.of_uint in Hof.
  assert (Hbig : forall k d, (1 <= k)%nat -> (4 <= Decimal.nb_digits d)%nat ->
                             Nat.of_uint_acc d k = n -> False).
  { intros k d Hk Hd Hv. pose proof (of_uint_acc_lower d k) as Hlow.
    assert (10 ^ 4 <= 10 ^ Decimal.nb_digits d)%nat
      by (apply Nat.pow_le_mono_r; lia).
    assert (1 * 10 ^ Decimal.nb_digits d <= k * 10 ^ Decimal.nb_digits d)%nat
      by (apply Nat.mul_le_mono_r; exact Hk).
    assert (Z.of_nat (10 ^ 4) = 10000) by (rewrite Nat2Z.inj_pow; reflexivity).
    lia. }
  destruct (Nat.to_uint n) as [|d|d|d|d|d|d|d|d|d|d] eqn:Hd;
    cbn [NilZero.string_of_uint];
    [ split; [cbn; lia | reflexivity]
    | split; [|exact Hlf]; rewrite Hlen; cbn [Decimal.nb_digits];
      change (Decimal.unorm (Decimal.D0 d)) with (Decimal.unorm d) in Hnorm;
      (destruct (Nat.eq_dec (Decimal.nb_digits d) 0) as [Hz|Hnz]; [lia|]);
      exfalso;
      assert (Hu : (Decimal.nb_digits (Decimal.unorm d) <= Decimal.nb_digits d)%nat)
        by (apply DecimalFacts.nb_digits_unorm; intros ->; apply Hnz; reflexivity);
      rewrite <- Hnorm in Hu; cbn [Decimal.nb_digits] in Hu; lia
    | .. ];
    (split; [|exact Hlf]); rewrite Hlen; cbn [Decimal.nb_digits];
    cbn [Nat.of_uint_acc] in Hof; rewrite Nat.tail_mul_spec in Hof;
    destruct (Nat.le_gt_cases (Decimal.nb_digits d) 3) as [Hle|Hgt]; try lia;
    exfalso; (eapply (Hbig _ d); [| |exact Hof]); lia.
Qed.

Lemma spaces_text (k : nat) :
  String.length (spaces k) = k /\ hasChar LF (spaces k) = false.
Proof.
  induction k as [|k [IHl IHc]]; [split; reflexivity|].
  cbn [spaces String.length hasChar]. rewrite IHl. split; [reflexivity | exact IHc].
Qed.

Lemma length_append (a b : string) :
  String.length (a ++ b)%string = (String.length a + String.length b)%nat.
Proof. induction a as [|x a IH]; [reflexivity | cbn; rewrite IH; reflexivity]. Qed.

(** Up to line 9999 the number field has four characters and no line
    feed. *)
Lemma number_field (index : nat) :
  Z.of_nat index < 9999 ->
  String.length (padStart4 (natToString (index + 1))) = 4%nat
  /\ hasChar LF (padStart4 (natToString (index + 1))) = false.
Proof.
  intros Hi. destruct (natToString_short (index + 1) ltac:(lia)) as [Hlen Hlf].
  unfold padStart4.
  destruct (spaces_text (4 - String.length (natToString (index + 1)))) as [Hsl Hsc].
  split.
  - rewrite length_append, Hsl. lia.
  - rewrite hasChar_app, Hsc, Hlf. reflexivity.
Qed.

Lemma numberFrom_lines (lines : list string) :
  forall index,
    Z.of_nat (index + List.length lines) <= 9999 ->
    Forall (fun l => hasChar LF l = false) lines ->
    map (dropChars 6) (numberFrom index lines) = lines
    /\ Forall (fun l => hasChar LF l = false) (numberFrom index lines).
Proof.
  induction lines as [|l lines IH]; intros index Hlen Hlf; [split; constructor|].
  inversion Hlf; subst. cbn [List.length] in Hlen.
  destruct (IH (S index) ltac:(lia) ltac:(assumption)) as [Hmap Hno].
  destruct (number_field index ltac:(lia)) as [H4 Hpad].
  cbn [numberFrom map]. split.
  - rewrite Hmap. f_equal. unfold numberLine.
    change 6%nat with (4 + 2)%nat. rewrite <- H4.
    generalize (padStart4 (natToString (index + 1))) as pad. intros pad.
    induction pad as [|x pad IHp]; [reflexivity | exact IHp].
  - constructor; [|exact Hno]. unfold numberLine.
    rewrite !hasChar_app, Hpad. cbn [hasChar]. assumption.
Qed.

(** X13.  For a diff of at most 9999 lines the numbering of
    [buildReviewPrompt] keeps the diff: every numbered line is the line of
    the diff after a field of six characters, so that taking six
    characters off each line of the numbered diff and joining the lines
    gives the diff back. *)
Theorem numberedDiff_keeps_diff (diff : string) :
  Z.of_nat (List.length (split_lines diff)) <= 9999 ->
  split_lines (numberedDiff diff) = numberFrom 0 (split_lines diff)
  /\ join_lines (map (dropChars 6) (split_lines (numberedDiff diff))) = diff.
Proof.
  intros Hlen.
  destruct (numberFrom_lines (split_lines diff) 0 ltac:(lia) (split_lines_noLF diff))
    as [Hmap Hno].
  assert (Hsplit : split_lines (numberedDiff diff) = numberFrom 0 (split_lines diff)).
  { unfold numberedDiff.
    destruct (split_lines_cons diff) as (l & ls & Hs). rewrite Hs in Hno |- *.
    cbn [numberFrom] in Hno |- *. apply split_join. exact Hno. }
  split; [exact Hsplit|]. rewrite Hsplit, Hmap. apply join_split.
Qed.

Lemma numberedDiff_keeps_diff_witness :
  split_lines (numberedDiff Sample.patch10)
  = numberFrom 0 (split_lines Sample.patch10)
  /\ join_lines (map (dropChars 6) (split_lines (numberedDiff Sample.patch10)))
     = Sample.patch10.
Proof.
  apply numberedDiff_keeps_diff. vm_compute. discriminate.
Defined.

End PromptFacts.

Module MoreCommentFacts.
Import Str Text Js Validator DiffLineMapper Orchestrator CommentShape.

(** a returned position is in the patch and on an added line *)
Lemma mapLineToDiff_found (t : Q) (patchLines : list string) (p : Z) :
  mapLineToDiff t patchLines = Some p ->
  1 <= p <= Z.of_nat (List.length patchLines)
  /\ exists line,
       nth_error patchLines (Z.to_nat (p - 1)) = Some line /\ tagOf line = Added.
Proof.
  intros H. destruct (DiffFacts.mapLoop_returns_added _ _ _ _ _ _ H)
    as (Hlt & line & Hnth & Hplus).
  rewrite Z.sub_0_r in Hnth.
  assert (Z.to_nat (p - 1) < List.length patchLines)%nat.
  { apply nth_error_Some. rewrite Hnth. discriminate. }
  split; [lia|]. exists line. split; [exact Hnth|].
  unfold tagOf. rewrite Hplus. reflexivity.
Qed.

Section WithRuntime.
Context {rt : Runtime}.

Lemma commentOfIssue_wellPlaced
      (filePath : string) (patchLines : list string) (issue : Value) (c : ReviewComment) :
  commentOfIssue filePath patchLines issue = Returned (Some c) ->
  wellPlaced filePath patchLines c = true.
Proof.
  unfold commentOfIssue.
  destruct (getProp issue "line") as [issueLine|]; cbn [bindO]; [|discriminate].
  unfold mapIssueLine.
  destruct issueLine as [[| b | n | s | items | fields]|]; try discriminate.
  destruct (mapLineToDiff n patchLines) as [p|] eqn:Hmap; [|discriminate].
  destruct (p =? 0); [discriminate|].
  destruct (getProp issue "severity"); cbn [bindO]; [|discriminate].
  destruct (getProp issue "category"); cbn [bindO]; [|discriminate].
  destruct (categoryLabelOf _); cbn [bindO]; [|discriminate].
  destruct (getProp issue "message"); cbn [bindO]; [|discriminate].
  intros H; inversion H; subst. unfold wellPlaced. cbn [path side line].
  destruct (mapLineToDiff_found _ _ _ Hmap) as [Hrange (l & Hnth & Htag)].
  rewrite String.eqb_refl, Hnth, Htag. cbn [andb].
  apply andb_true_iff. split; [apply andb_true_iff; split|reflexivity];
    [apply Z.leb_le | apply Z.leb_le]; lia.
Qed.

(** The loop adds to what it has: its result is the accumulator followed
    by the comments made from nothing. *)
Lemma commentsLoop_acc (filePath : string) (patchLines : list string)
      (issues : list Value) :
  forall acc,
    commentsLoop filePath patchLines issues acc
    = bindO (commentsLoop filePath patchLines issues [])
            (fun cs => Returned (acc ++ cs)).
Proof.
  induction issues as [|issue issues IH]; intros acc.
  - cbn [commentsLoop bindO]. rewrite app_nil_r. reflexivity.
  - cbn [commentsLoop].
    destruct (commentOfIssue filePath patchLines issue) as [[c|]|e]; cbn [bindO];
      [|apply IH | reflexivity].
    rewrite (IH (acc ++ [c])), (IH ([] ++ [c])).
    destruct (commentsLoop filePath patchLines issues []) as [cs|e]; cbn [bindO];
      [|reflexivity].
    rewrite <- app_assoc. reflexivity.
Qed.

Lemma commentsLoop_cons (filePath : string) (patchLines : list string)
      (issue : Value) (issues : list Value) :
  commentsLoop filePath patchLines (issue :: issues) []
  = bindO (commentOfIssue filePath patchLines issue) (fun c =>
    bindO (commentsLoop filePath patchLines issues []) (fun cs =>
    Returned (match c with Some comment => comment :: cs | None => cs end))).
Proof.
  cbn [commentsLoop].
  destruct (commentOfIssue filePath patchLines issue) as [[c|]|e]; cbn [bindO];
    [|destruct (commentsLoop filePath patchLines issues []); reflexivity | reflexivity].
  rewrite commentsLoop_acc. reflexivity.
Qed.

(** X14.  When [createReviewComments] returns, there are at most as many
    comments as issues, and every comment names the file, is on the side
    [RIGHT] and has for its line the 1-based index of an added line of the
    patch. *)
Theorem createReviewComments_wellPlaced
        (filePath patchText : string) (issues : list Value) (cs : list ReviewComment) :
  createReviewComments filePath issues patchText = Returned cs ->
  (List.length cs <= List.length issues)%nat
  /\ forallb (wellPlaced filePath (split_lines patchText)) cs = true.
Proof.
  unfold createReviewComments. revert cs.
  induction issues as [|issue issues IH]; intros cs H.
  - inversion H. split; [apply Nat.le_refl | reflexivity].
  - rewrite commentsLoop_cons in H.
    destruct (commentOfIssue filePath (split_lines patchText) issue) as [c|] eqn:Hc;
      cbn [bindO] in H; [|discriminate].
    destruct (commentsLoop filePath (split_lines patchText) issues []) as [cs'|];
      cbn [bindO] in H; [|discriminate].
    destruct (IH cs' eq_refl) as [Hlen Hall]. inversion H; subst.
    destruct c as [comment|]; cbn [List.length forallb].
    + rewrite (commentOfIssue_wellPlaced _ _ _ _ Hc), Hall. split; [lia | reflexivity].
    + split; [lia | exact Hall].
Qed.

(** X15.  The comments follow the issues: when the comments of two lists
    of issues are made, the comments of the two lists one after the other
    are the comments of the first followed by those of the second. *)
Theorem createReviewComments_app
        (filePath patchText : string) (issues1 issues2 : list Value)
        (cs1 cs2 : list ReviewComment) :
  createReviewComments filePath issues1 patchText = Returned cs1 ->
  createReviewComments filePath issues2 patchText = Returned cs2 ->
  createReviewComments filePath (issues1 ++ issues2) patchText = Returned (cs1 ++ cs2).
Proof.
  unfold createReviewComments. revert cs1.
  induction issues1 as [|issue issues1 IH]; intros cs1 H1 H2.
  - inversion H1. exact H2.
  - cbn [app]. rewrite commentsLoop_cons in H1 |- *.
    destruct (commentOfIssue filePath (split_lines patchText) issue) as [c|];
      cbn [bindO] in H1 |- *; [|discriminate].
    destruct (commentsLoop filePath (split_lines patchText) issues1 []) as [cs'|];
      cbn [bindO] in H1; [|discriminate].
    rewrite (IH cs' eq_refl H2). cbn [bindO]. inversion H1; subst.
    destruct c; reflexivity.
Qed.

(** X16.  An issue whose line maps into the patch and whose category is
    truthy and no text makes [createReviewComments] throw a [TypeError],
    after issues that gave their comments and whatever issues follow: the
    comments of the other issues of the file are lost with it. *)
Theorem createReviewComments_bad_category
        (filePath patchText : string) (before after : list Value)
        (fields : list (string * Value)) (cs : list ReviewComment) (p : Z) :
  createReviewComments filePath before patchText = Returned cs ->
  mapIssueLine (lookup "line" fields) (split_lines patchText) = Some p ->
  badCategory (lookup "category" fields) = true ->
  createReviewComments filePath (before ++ JObj fields :: after) patchText
  = Thrown TypeError.
Proof.
  unfold createReviewComments. revert cs.
  induction before as [|issue before IH]; intros cs Hbefore Hmap Hbad.
  - cbn [app]. rewrite commentsLoop_cons. unfold commentOfIssue.
    cbn [getProp bindO]. rewrite Hmap.
    assert (Hp : (p =? 0) = false).
    { unfold mapIssueLine in Hmap.
      destruct (lookup "line" fields) as [[| b | n | s | items | fs]|]; try discriminate.
      destruct (mapLineToDiff_found _ _ _ Hmap) as [Hrange _]. apply Z.eqb_neq. lia. }
    rewrite Hp. unfold badCategory in Hbad. apply andb_true_iff in Hbad as [Ht Hns].
    unfold categoryLabelOf. rewrite Ht.
    destruct (lookup "category" fields) as [[| b | n | s | items | fs]|];
      try discriminate; reflexivity.
  - cbn [app]. rewrite commentsLoop_cons in Hbefore |- *.
    destruct (commentOfIssue filePath (split_lines patchText) issue) as [c|];
      cbn [bindO] in Hbefore |- *; [|discriminate].
    destruct (commentsLoop filePath (split_lines patchText) before []) as [cs'|];
      cbn [bindO] in Hbefore; [|discriminate].
    rewrite (IH cs' eq_refl Hmap Hbad). reflexivity.
Qed.

End WithRuntime.

Lemma createReviewComments_wellPlaced_witness :
  (1 <= 2)%nat
  /\ forallb (wellPlaced "a.ts" (split_lines Sample.patch10))
       [mkComment "a.ts" 3 (markCritical ++ " **SECURITY**" ++ String LF "m")%string "RIGHT"]
     = true.
Proof.
  exact (createReviewComments_wellPlaced (rt := Sample.runtime) "a.ts" Sample.patch10
           [JObj [("line", JNum 11); ("severity", JStr "critical");
                  ("category", JStr "security"); ("message", JStr "m")];
            JObj [("line", JNum 10); ("message", JStr "w")]]
           _ eq_refl).
Defined.

Lemma createReviewComments_app_witness :
  createReviewComments (rt := Sample.runtime) "a.ts"
    ([Sample.bare] ++ [JObj [("line", JNum 12); ("message", JStr "n")]]) Sample.patch10
  = Returned ([mkComment "a.ts" 3 (markDefault ++ " " ++ String LF "m")%string "RIGHT"]
              ++ [mkComment "a.ts" 5 (markDefault ++ " " ++ String LF "n")%string "RIGHT"]).
Proof.
  apply (createReviewComments_app (rt := Sample.runtime)); reflexivity.
Defined.

Lemma createReviewComments_bad_category_witness :
  createReviewComments (rt := Sample.runtime) "a.ts"
    ([Sample.bare]
     ++ JObj [("line", JNum 12); ("category", JNum 5); ("message", JStr "n")] :: [])
    Sample.patch10
  = Thrown TypeError.
Proof.
  apply (createReviewComments_bad_category (rt := Sample.runtime) "a.ts" Sample.patch10
           [Sample.bare] [] _
           [mkComment "a.ts" 3 (markDefault ++ " " ++ String LF "m")%string "RIGHT"] 5);
    reflexivity.
Defined.

End MoreCommentFacts.

Module MoreRunFacts.
Import Str Text Js Validator DiffLineMapper Orchestrator.

(** A severity is in one bucket at most. *)
Lemma buckets_exclusive (severity : option Value) :
  let inBucket names :=
    match severity with
    | Some (JStr s) => existsb (String.eqb s) names
    | _ => false
    end in
  (Nat.b2n (inBucket ["critical"]) + Nat.b2n (inBucket ["warning"])
   + Nat.b2n (inBucket ["suggestion"; "info"]) <= 1)%nat.
Proof.
  destruct severity as [[| b | n | s | items | fields]|]; cbn; try lia.
  destruct (String.eqb_spec s "critical") as [->|_]; [cbn; lia|].
  destruct (String.eqb_spec s "warning") as [->|_]; [cbn; lia|].
  destruct (s =? "suggestion")%string; destruct (s =? "info")%string; cbn; lia.
Qed.

Lemma countWhere_cons (names : list string) (r : Value) (rest : list Value) (n : nat) :
  countWhere (severityIn names) (r :: rest) = Returned n ->
  exists severity m,
    getProp r "severity" = Returned severity
    /\ countWhere (severityIn names) rest = Returned m
    /\ n = (Nat.b2n match severity with
                    | Some (JStr s) => existsb (String.eqb s) names
                    | _ => false
                    end + m)%nat.
Proof.
  unfold countWhere, severityIn. cbn [filterO].
  destruct (getProp r "severity") as [severity|]; cbn [bindO]; [|discriminate].
  destruct (filterO _ rest) as [kept'|]; cbn [bindO]; [|discriminate].
  intros H; inversion H. exists severity, (List.length kept').
  repeat split. destruct (match severity with Some (JStr s) => _ | _ => false end);
    reflexivity.
Qed.

Lemma buckets_bound (reviews : list Value) :
  forall a b c,
    countWhere (severityIn ["critical"]) reviews = Returned a ->
    countWhere (severityIn ["warning"]) reviews = Returned b ->
    countWhere (severityIn ["suggestion"; "info"]) reviews = Returned c ->
    (a + b + c <= List.length reviews)%nat.
Proof.
  induction reviews as [|r rest IH]; intros a b c Ha Hb Hc.
  - inversion Ha; inversion Hb; inversion Hc. cbn. lia.
  - destruct (countWhere_cons _ _ _ _ Ha) as (s1 & a' & Hs1 & Ha' & ->).
    destruct (countWhere_cons _ _ _ _ Hb) as (s2 & b' & Hs2 & Hb' & ->).
    destruct (countWhere_cons _ _ _ _ Hc) as (s3 & c' & Hs3 & Hc' & ->).
    rewrite Hs1 in Hs2, Hs3. inversion Hs2; inversion Hs3; subst s2 s3.
    pose proof (IH _ _ _ Ha' Hb' Hc') as Hrest.
    pose proof (buckets_exclusive s1) as Hex. cbv zeta in Hex.
    cbn [List.length]. lia.
Qed.

Section WithWorld.
Context {rt : Runtime} {World : Type} {co : Collaborators World}.
Variable config : Config.

(** X17.  The three tallies of a reviewed file count different issues:
    together they are at most the number of issues the parser returned
    for the file. *)
Theorem tallies_bounded (file : PullRequestFile) (t d : option string)
        (st st' : State World) (r : FileReview) :
  reviewFile config file t d st = (st', Returned r) ->
  exists result,
    reviewCode (filename file) (patchText file) (prompt config) t d st
    = (st', Returned result)
    /\ (criticals r + warningsOfFile r + suggestionsOfFile r
        <= List.length (reviews result))%nat
    /\ (List.length (comments r) <= List.length (reviews result))%nat.
Proof.
  intros H. destruct (RunFacts.reviewFile_tallies _ _ _ _ _ _ _ H)
    as (result & Hcode & Hcs & Hc & Hw & Hs & _).
  exists result. split; [exact Hcode|]. split.
  - exact (buckets_bound _ _ _ _ Hc Hw Hs).
  - clear - Hcs. unfold createReviewComments in Hcs.
    assert (Hgen : forall issues acc cs,
               commentsLoop (filename file) (split_lines (patchText file)) issues acc
               = Returned cs ->
               (List.length cs <= List.length acc + List.length issues)%nat).
    { induction issues as [|issue issues IH]; intros acc cs Hl.
      - inversion Hl. cbn. lia.
      - cbn [commentsLoop] in Hl.
        destruct (commentOfIssue _ _ issue) as [[c|]|]; cbn [bindO] in Hl;
          [| |discriminate]; apply IH in Hl; rewrite ?length_app in Hl;
          cbn [List.length] in *; lia. }
    apply Hgen in Hcs. cbn in Hcs. lia.
Qed.

(** X18.  A failure of the setup ends the run at once with the error of
    the failed call: when the details of the pull request cannot be had,
    no other call is made; when the list of files cannot be had, the run
    has made the two fetching calls and no other. *)
Theorem runReview_setup_failure (st : State World) :
  (forall w e,
      getPRDetails (world st) = (w, Thrown e) ->
      runReview config st = (mkState w (log st ++ [CallGetPRDetails]), Thrown e))
  /\ (forall w1 pr w2 e,
         getPRDetails (world st) = (w1, Returned pr) ->
         getChangedFiles (excludePatterns config) w1 = (w2, Thrown e) ->
         runReview config st = (fetched config st w2, Thrown e)).
Proof.
  split.
  - intros w e Hpr. unfold runReview, bindM, perform. rewrite Hpr. reflexivity.
  - intros w1 pr w2 e Hpr Hfiles. unfold runReview, bindM, perform, fetched.
    rewrite Hpr. cbn [world log]. rewrite Hfiles. rewrite <- app_assoc. reflexivity.
Qed.

(** Posting adds to the log and takes nothing from it. *)
Lemma postReview_extends
      (allComments : list ReviewComment) (fileResults : list FileResult)
      (overallSummary : string) (c w s : nat) (st st' : State World) (o : Outcome unit) :
  postReview config allComments fileResults overallSummary c w s st = (st', o) ->
  exists more, log st' = log st ++ more.
Proof.
  unfold postReview.
  destruct (0 <? List.length allComments)%nat; destruct (postAsReview config).
  - unfold perform. destruct (createReview _ _ _ (world st)) as [w1 r].
    intros H; inversion H; subst; cbn [log]. eauto.
  - unfold bindM, perform.
    destruct (postReviewComments allComments (world st)) as [w1 [u|e]]; cbn [world log].
    + destruct (postGeneralComment _ w1) as [w2 r].
      intros H; inversion H; subst; cbn [log]. rewrite <- app_assoc. eauto.
    + intros H; inversion H; subst; cbn [log]. eauto.
  - unfold perform. destruct (createReview _ _ _ (world st)) as [w1 r].
    intros H; inversion H; subst; cbn [log]. eauto.
  - unfold perform. destruct (postGeneralComment _ (world st)) as [w1 r].
    intros H; inversion H; subst; cbn [log]. eauto.
Qed.


Lemma sumOf_app (f : FileResult -> nat) (xs ys : list FileResult) :
  sumOf f (xs ++ ys) = (sumOf f xs + sumOf f ys)%nat.
Proof.
  unfold sumOf. rewrite fold_left_app.
  generalize (fold_left (fun sum r => (sum + f r)%nat) xs 0%nat) as start.
  induction ys as [|y ys IH]; intros start; cbn [fold_left]; [lia|].
  rewrite IH, (IH (0 + f y)%nat). lia.
Qed.

(** The loop keeps the number of comments equal to the sum of the counts
    of the file results. *)
Lemma reviewLoop_counts (pr : PRDetails) (files : list PullRequestFile) :
  forall acc st st' acc',
    reviewLoop config pr files acc st = (st', Returned acc') ->
    List.length (fst acc) = sumOf issueCount (snd acc) ->
    List.length (fst acc') = sumOf issueCount (snd acc')
    /\ (List.length (snd acc') <= List.length (snd acc) + List.length files)%nat.
Proof.
  induction files as [|file rest IH]; intros acc st st' acc' Hloop Hinv.
  - cbn [reviewLoop] in Hloop. unfold ret in Hloop. inversion Hloop; subst.
    split; [exact Hinv | cbn; lia].
  - rewrite RunFacts.reviewLoop_cons in Hloop. cbn [List.length].
    destruct (skipped file).
    + destruct (IH _ _ _ _ Hloop Hinv). split; [assumption | lia].
    + destruct (reviewFile config file (Some (title pr)) (descriptionOf pr) st)
        as [st1 [r|e]].
      * destruct (IH _ _ _ _ Hloop) as [H1 H2].
        { unfold record. cbn [fst snd]. rewrite length_app, sumOf_app, Hinv.
          cbn. lia. }
        split; [exact H1|]. unfold record in H2. cbn [snd] in H2.
        rewrite length_app in H2. cbn [List.length] in H2. lia.
      * destruct (IH _ _ _ _ Hloop Hinv). split; [assumption | lia].
Qed.

(** X20.  In every report of a run with files, [filesReviewed] is at most
    [totalFiles], and the file reviews handed to [generateSummary] are as
    many as [filesReviewed] with counts that add up to [totalComments]. *)
Theorem report_counts (st st' : State World) (w1 w2 : World) (pr : PRDetails)
        (files : list PullRequestFile) (report : ReviewSummary) :
  getPRDetails (world st) = (w1, Returned pr) ->
  getChangedFiles (excludePatterns config) w1 = (w2, Returned files) ->
  files <> [] ->
  runReview config st = (st', Returned report) ->
  (filesReviewed report <= totalFiles report)%nat
  /\ exists fileReviews,
       In (CallGenerateSummary fileReviews) (log st')
       /\ List.length fileReviews = filesReviewed report
       /\ fold_left (fun sum r => (sum + snd r)%nat) fileReviews 0%nat
          = totalComments report.
Proof.
  intros Hpr Hfiles Hne Hrun.
  destruct (RunFacts.runReview_after_fetch _ _ _ _ _ _ Hpr Hfiles Hne)
    as (stl & acc & stg & overallSummary & Hloop & Hsum & Hlog & Heq).
  rewrite Heq in Hrun.
  destruct (postReview config (fst acc) (snd acc) overallSummary _ _ _ stg)
    as [stp [u|e]] eqn:Hpost; [|discriminate].
  inversion Hrun; subst. clear Hrun.
  destruct (reviewLoop_counts _ _ _ _ _ _ Hloop eq_refl) as [Hcount Hlen].
  cbn [reportOf filesReviewed totalFiles totalComments].
  split.
  - cbn [snd List.length] in Hlen.
    assert (List.length (filesToReview config files) <= List.length files)%nat.
    { unfold filesToReview. destruct (0 <? maxFiles config); [|apply Nat.le_refl].
      rewrite length_firstn. apply Nat.le_min_r. }
    lia.
  - exists (map (fun r => (filePath r, fileSummary r, issueCount r)) (snd acc)).
    split; [|split].
    + assert (Hin : In (CallGenerateSummary
                          (map (fun r => (filePath r, fileSummary r, issueCount r))
                               (snd acc))) (log stg)).
      { rewrite Hlog. apply in_or_app. right. left. reflexivity. }
      destruct (postReview_extends _ _ _ _ _ _ _ _ _ Hpost) as [more Hmore].
      rewrite Hmore. apply in_or_app. left. exact Hin.
    + apply length_map.
    + rewrite Hcount. unfold sumOf.
      generalize 0%nat as start. generalize (snd acc) as frs.
      induction frs as [|fr frs IH]; intros start; [reflexivity|].
      cbn [map fold_left snd]. apply IH.
Qed.

(** X21.  A file that is removed or has no patch is passed over as if it
    were not in the list: the loop makes no call for it and ends in the
    same state with the same accumulators. *)
Theorem reviewLoop_skipped (pr : PRDetails) (before after : list PullRequestFile)
        (file : PullRequestFile) (acc : Accumulated) (st : State World) :
  skipped file = true ->
  reviewLoop config pr (before ++ file :: after) acc st
  = reviewLoop config pr (before ++ after) acc st.
Proof.
  intros Hskip. revert acc st.
  induction before as [|f before IH]; intros acc st; cbn [app].
  - rewrite RunFacts.reviewLoop_cons, Hskip. reflexivity.
  - rewrite !RunFacts.reviewLoop_cons. destruct (skipped f); [apply IH|].
    destruct (reviewFile config f (Some (title pr)) (descriptionOf pr) st) as [st1 [r|e]];
      apply IH.
Qed.

(** X22.  The files that go into the loop are the first files of the
    list; files are left out only under a limit above 0, and then exactly
    [maxFiles] files go in. *)
Theorem filesToReview_prefix (files : list PullRequestFile) :
  exists leftOut,
    files = filesToReview config files ++ leftOut
    /\ (leftOut <> [] ->
        0 < maxFiles config
        /\ Z.of_nat (List.length (filesToReview config files)) = maxFiles config)
    /\ (maxFiles config <= 0 \/ Z.of_nat (List.length files) <= maxFiles config ->
        leftOut = []).
Proof.
  unfold filesToReview. destruct (Z.ltb_spec 0 (maxFiles config)) as [Hpos|Hnon].
  - exists (skipn (Z.to_nat (maxFiles config)) files).
    split; [symmetry; apply firstn_skipn|]. split.
    + intros Hne. split; [exact Hpos|]. rewrite length_firstn.
      assert (List.length (skipn (Z.to_nat (maxFiles config)) files) <> 0)%nat.
      { intros H0. apply Hne. apply length_zero_iff_nil. exact H0. }
      rewrite length_skipn in H. lia.
    + intros [Hle|Hle]; [lia|]. apply skipn_all2. lia.
  - exists []. rewrite app_nil_r. split; [reflexivity|]. split; [congruence | reflexivity].
Qed.

End WithWorld.

Lemma tallies_bounded_witness :
  exists result,
    reviewCode (rt := Sample.runtime) (co := Sample.collaborators [])
      "a.ts" Sample.patch10 "Review this" None None Sample.start
    = (mkState 1%nat [reviewCallOf (Sample.changed "a.ts")], Returned result)
    /\ (1 + 1 + 0 <= List.length (reviews result))%nat
    /\ (1 <= List.length (reviews result))%nat.
Proof.
  exact (tallies_bounded (rt := Sample.runtime) (co := Sample.collaborators [])
           (Sample.config 0) (Sample.changed "a.ts") None None Sample.start
           (mkState 1%nat [reviewCallOf (Sample.changed "a.ts")])
           (mkFileReview
              [mkComment "a.ts" 3
                 (markCritical ++ " **SECURITY**" ++ String LF "m")%string "RIGHT"]
              (JStr "ok") 1 1 0)
           eq_refl).
Defined.

Lemma runReview_setup_failure_witness :
  runReview (rt := Sample.runtime) (co := SampleFailures.noDetails)
    (Sample.config 0) Sample.start
  = (mkState 1%nat [CallGetPRDetails], Thrown (ServiceError "401"))
  /\ runReview (rt := Sample.runtime) (co := SampleFailures.noFiles)
       (Sample.config 0) Sample.start
     = (mkState 2%nat [CallGetPRDetails; CallGetChangedFiles []],
        Thrown (ServiceError "404")).
Proof.
  split.
  - exact (proj1 (runReview_setup_failure (rt := Sample.runtime)
                    (co := SampleFailures.noDetails) (Sample.config 0) Sample.start)
             1%nat (ServiceError "401") eq_refl).
  - exact (proj2 (runReview_setup_failure (rt := Sample.runtime)
                    (co := SampleFailures.noFiles) (Sample.config 0) Sample.start)
             1%nat Sample.samplePR 2%nat (ServiceError "404") eq_refl eq_refl).
Defined.


Lemma report_counts_witness :
  let co := Sample.collaborators Sample.fiveFiles in
  let run := runReview (rt := Sample.runtime) (co := co) (Sample.config 2) Sample.start in
  (2 <= 5)%nat
  /\ exists fileReviews,
       In (CallGenerateSummary fileReviews) (log (fst run))
       /\ List.length fileReviews = 2%nat
       /\ fold_left (fun sum r => (sum + snd r)%nat) fileReviews 0%nat = 2%nat.
Proof.
  intros co run.
  pose (report := match snd run with Returned r => r | Thrown _ => emptyReport end).
  refine (report_counts (rt := Sample.runtime) (co := co) (Sample.config 2)
            Sample.start (fst run) 1%nat 2%nat Sample.samplePR Sample.fiveFiles report
            eq_refl eq_refl _ eq_refl).
  discriminate.
Defined.

Lemma reviewLoop_skipped_witness :
  let gone := mkFile "old.ts" "removed" (Some Sample.patch10) in
  reviewLoop (rt := Sample.runtime) (co := Sample.collaborators [])
    (Sample.config 0) Sample.samplePR
    ([Sample.changed "a.ts"] ++ gone :: [Sample.changed "c.ts"]) ([], []) Sample.start
  = reviewLoop (rt := Sample.runtime) (co := Sample.collaborators [])
      (Sample.config 0) Sample.samplePR
      ([Sample.changed "a.ts"] ++ [Sample.changed "c.ts"]) ([], []) Sample.start.
Proof.
  intros gone. apply reviewLoop_skipped. reflexivity.
Defined.

Lemma filesToReview_prefix_witness :
  exists leftOut,
    Sample.fiveFiles = filesToReview (Sample.config 7) Sample.fiveFiles ++ leftOut
    /\ leftOut = [].
Proof.
  destruct (filesToReview_prefix (Sample.config 7) Sample.fiveFiles)
    as (leftOut & Hsplit & _ & Hall).
  exists leftOut. split; [exact Hsplit|]. apply Hall. right. cbn. lia.
Defined.

End MoreRunFacts.

Module ConfigFacts.
Import Str Text Js ConfigLoader.

Section WithEnvironment.
Context {rt : Runtime} {env : Environment}.

(** A configuration that is returned was built from ten inputs that were
    all given, a valid mode and an accepted URL. *)
Lemma loadConfig_returned (c : Config) :
  loadConfig = Ok c ->
  exists customPrompt reviewModeInput maxFilesInput excludePatternsInput
         failOnErrorInput postAsReviewInput,
    getInput "LLM_BASE_URL" true = Ok (llmBaseUrl c)
    /\ getInput "LLM_MODEL" true = Ok (llmModel c)
    /\ getInput "LLM_API_KEY" true = Ok (llmApiKey c)
    /\ getInput "PROMPT" false = Ok customPrompt
    /\ getInput "GITHUB_TOKEN" true = Ok (githubToken c)
    /\ getInput "REVIEW_MODE" false = Ok reviewModeInput
    /\ getInput "MAX_FILES" false = Ok maxFilesInput
    /\ getInput "EXCLUDE_PATTERNS" false = Ok excludePatternsInput
    /\ getInput "FAIL_ON_ERROR" false = Ok failOnErrorInput
    /\ getInput "POST_AS_REVIEW" false = Ok postAsReviewInput
    /\ existsb (String.eqb (reviewMode c)) validModes = true
    /\ checkUrl (llmBaseUrl c) = Ok tt
    /\ c = mkConfig (llmBaseUrl c) (llmModel c) (llmApiKey c)
             (orText customPrompt (defaultPrompt (orText reviewModeInput "detailed")))
             (githubToken c) (orText reviewModeInput "detailed")
             (parseInt10 (orText maxFilesInput "50"))
             (parsePatterns excludePatternsInput)
             (String.eqb failOnErrorInput "true")
             (negb (String.eqb postAsReviewInput "false")).
Proof.
  unfold loadConfig.
  destruct (getInput "LLM_BASE_URL" true) as [v1|]; cbn [bindL]; [|discriminate].
  destruct (getInput "LLM_MODEL" true) as [v2|]; cbn [bindL]; [|discriminate].
  destruct (getInput "LLM_API_KEY" true) as [v3|]; cbn [bindL]; [|discriminate].
  destruct (getInput "PROMPT" false) as [v4|]; cbn [bindL]; [|discriminate].
  destruct (getInput "GITHUB_TOKEN" true) as [v5|]; cbn [bindL]; [|discriminate].
  destruct (getInput "REVIEW_MODE" false) as [v6|]; cbn [bindL]; [|discriminate].
  destruct (getInput "MAX_FILES" false) as [v7|]; cbn [bindL]; [|discriminate].
  destruct (getInput "EXCLUDE_PATTERNS" false) as [v8|]; cbn [bindL]; [|discriminate].
  destruct (getInput "FAIL_ON_ERROR" false) as [v9|]; cbn [bindL]; [|discriminate].
  destruct (getInput "POST_AS_REVIEW" false) as [v10|]; cbn [bindL]; [|discriminate].
  destruct (existsb (String.eqb (orText v6 "detailed")) validModes) eqn:Hmode;
    cbn [negb]; [|discriminate].
  destruct (checkUrl v1) as [[]|] eqn:Hurl; cbn [bindL]; [|discriminate].
  intros H; inversion H; subst; cbn.
  exists v4, v6, v7, v8, v9, v10. repeat split; assumption.
Qed.

(** X23.  A configuration that [loadConfig] returns has one of the four
    review modes, a base URL whose protocol is [http:] or [https:], and no
    empty exclusion pattern. *)
Theorem loadConfig_valid (c : Config) :
  loadConfig = Ok c ->
  In (reviewMode c) validModes
  /\ (urlProtocol (llmBaseUrl c) = Some "https:"
      \/ urlProtocol (llmBaseUrl c) = Some "http:")
  /\ Forall (fun p => p <> ""%string) (excludePatterns c).
Proof.
  intros H. destruct (loadConfig_returned c H)
    as (v4 & v6 & v7 & v8 & v9 & v10 & _ & _ & _ & _ & _ & _ & _ & _ & _ & _
        & Hmode & Hurl & Hc).
  split; [|split].
  - apply existsb_exists in Hmode as (m & Hin & Heq).
    apply String.eqb_eq in Heq. subst m. exact Hin.
  - unfold checkUrl in Hurl.
    destruct (urlProtocol (llmBaseUrl c)) as [protocol|]; [|discriminate].
    destruct (String.eqb_spec protocol "https:") as [E1|_]; [left; congruence|].
    destruct (String.eqb_spec protocol "http:") as [E2|_]; [right; congruence|].
    discriminate.
  - rewrite Hc. cbn [excludePatterns]. unfold parsePatterns.
    destruct (String.eqb v8 "").
    + repeat constructor; discriminate.
    + apply Forall_forall. intros p Hin. apply filter_In in Hin as [_ Hp].
      intros ->. discriminate.
Qed.

(** X24.  With the optional inputs left empty the configuration has the
    mode [detailed] and its prompt, at most 50 files, the default
    exclusion patterns, posting as a review, and no failing on error. *)
Theorem loadConfig_defaults (c : Config) :
  getInput "PROMPT" false = Ok ""%string ->
  getInput "REVIEW_MODE" false = Ok ""%string ->
  getInput "MAX_FILES" false = Ok ""%string ->
  getInput "EXCLUDE_PATTERNS" false = Ok ""%string ->
  getInput "FAIL_ON_ERROR" false = Ok ""%string ->
  getInput "POST_AS_REVIEW" false = Ok ""%string ->
  loadConfig = Ok c ->
  reviewMode c = "detailed"%string
  /\ prompt c = defaultPrompt "detailed"
  /\ maxFiles c = Some 50
  /\ excludePatterns c = defaultExcludePatterns
  /\ postAsReview c = true
  /\ failOnError c = false.
Proof.
  intros H4 H6 H7 H8 H9 H10 H.
  destruct (loadConfig_returned c H)
    as (v4 & v6 & v7 & v8 & v9 & v10 & _ & _ & _ & E4 & _ & E6 & E7 & E8 & E9 & E10
        & _ & _ & Hc).
  rewrite H4 in E4. rewrite H6 in E6. rewrite H7 in E7. rewrite H8 in E8.
  rewrite H9 in E9. rewrite H10 in E10.
  inversion E4; inversion E6; inversion E7; inversion E8; inversion E9; inversion E10.
  subst. rewrite Hc. cbn. repeat split.
Qed.

(** X25.  The two switches are read strictly: posting as a review is
    turned off by the input [false] and by no other text, failing on error
    is turned on by the input [true] and by no other text. *)
Theorem loadConfig_switches (c : Config) (postInput failInput : string) :
  getInput "POST_AS_REVIEW" false = Ok postInput ->
  getInput "FAIL_ON_ERROR" false = Ok failInput ->
  loadConfig = Ok c ->
  (postAsReview c = false <-> postInput = "false"%string)
  /\ (failOnError c = true <-> failInput = "true"%string).
Proof.
  intros Hp Hf H.
  destruct (loadConfig_returned c H)
    as (v4 & v6 & v7 & v8 & v9 & v10 & _ & _ & _ & _ & _ & _ & _ & _ & E9 & E10
        & _ & _ & Hc).
  rewrite Hp in E10. rewrite Hf in E9. inversion E9; inversion E10; subst v9 v10.
  rewrite Hc. cbn [postAsReview failOnError]. split.
  - rewrite negb_false_iff. apply String.eqb_eq.
  - apply String.eqb_eq.
Qed.

(** X26.  A limit that is 0, negative or no number at all means no limit:
    with such an input for [MAX_FILES] the orchestrator reviews all the
    files it is given. *)
Theorem loadConfig_no_limit (c : Config) (maxFilesInput : string)
        (files : list Orchestrator.PullRequestFile) :
  getInput "MAX_FILES" false = Ok maxFilesInput ->
  maxFilesInput <> ""%string ->
  parseInt10 maxFilesInput = None
  \/ (exists n, parseInt10 maxFilesInput = Some n /\ n <= 0) ->
  loadConfig = Ok c ->
  Orchestrator.filesToReview (forOrchestrator c) files = files.
Proof.
  intros Hin Hne Hcase H.
  destruct (loadConfig_returned c H)
    as (v4 & v6 & v7 & v8 & v9 & v10 & _ & _ & _ & _ & _ & _ & E7 & _ & _ & _
        & _ & _ & Hc).
  rewrite Hin in E7. inversion E7; subst v7.
  unfold Orchestrator.filesToReview, forOrchestrator. cbn [Orchestrator.maxFiles].
  rewrite Hc. cbn [maxFiles]. unfold orText.
  destruct (String.eqb_spec maxFilesInput "") as [E|_]; [congruence|].
  destruct Hcase as [-> | (n & -> & Hn)]; [reflexivity|].
  destruct (Z.ltb_spec 0 n); [lia | reflexivity].
Qed.

End WithEnvironment.





Lemma loadConfig_valid_witness :
  In "detailed"%string validModes
  /\ (SampleInputs.protocolOf "https://api.example.com/v1" = Some "https:"%string
      \/ SampleInputs.protocolOf "https://api.example.com/v1" = Some "http:"%string)
  /\ Forall (fun p => p <> ""%string) defaultExcludePatterns.
Proof.
  exact (loadConfig_valid (rt := Sample.runtime)
           (env := SampleInputs.environment SampleInputs.minimal)
           (mkConfig "https://api.example.com/v1" "model" "key"
              "Prompt of the mode detailed" "token" "detailed" (Some 50)
              defaultExcludePatterns false true)
           eq_refl).
Defined.

Lemma loadConfig_defaults_witness :
  maxFiles (mkConfig "https://api.example.com/v1" "model" "key"
              "Prompt of the mode detailed" "token" "detailed" (Some 50)
              defaultExcludePatterns false true) = Some 50.
Proof.
  exact (proj1 (proj2 (proj2
           (loadConfig_defaults (rt := Sample.runtime)
              (env := SampleInputs.environment SampleInputs.minimal) _
              eq_refl eq_refl eq_refl eq_refl eq_refl eq_refl eq_refl)))).
Defined.

(** the inputs [FALSE] and [yes] are not the ones that turn the switches *)
Lemma loadConfig_switches_witness :
  (true = false <-> "FALSE"%string = "false"%string)
  /\ (false = true <-> "yes"%string = "true"%string).
Proof.
  exact (loadConfig_switches (rt := Sample.runtime)
           (env := SampleInputs.environment
                     (("POST_AS_REVIEW", "FALSE") :: ("FAIL_ON_ERROR", "yes")
                      :: SampleInputs.minimal))
           (mkConfig "https://api.example.com/v1" "model" "key"
              "Prompt of the mode detailed" "token" "detailed" (Some 50)
              defaultExcludePatterns false true)
           "FALSE" "yes" eq_refl eq_refl eq_refl).
Defined.

(** [MAX_FILES] set to [all]: all five files are reviewed *)
Lemma loadConfig_no_limit_witness :
  Orchestrator.filesToReview
    (forOrchestrator
       (mkConfig "https://api.example.com/v1" "model" "key"
          "Prompt of the mode detailed" "token" "detailed" None
          defaultExcludePatterns false true))
    Sample.fiveFiles
  = Sample.fiveFiles.
Proof.
  refine (loadConfig_no_limit (rt := Sample.runtime)
            (env := SampleInputs.environment (("MAX_FILES", "all") :: SampleInputs.minimal))
            _ "all" Sample.fiveFiles eq_refl _ (or_introl eq_refl) eq_refl).
  discriminate.
Defined.

End ConfigFacts.
